(* Verification development for the Dahab marine-forecast service:
   app/config.py, app/tides.py, app/tides_fes2022.py, app/cache.py,
   app/fetcher.py, app/main.py, extract_fes2022_constants.py and
   verify_fes2022.py.

   Modelling conventions.
   - A Python float is the rational [Q] it denotes.  In the tide code every
     float operation is rounded to binary64 ([fl], round to nearest even);
     in the service code the only float arithmetic, the cache age
     [time.time() - last_updated], is taken as exact.
   - Instants are integers of microseconds since 1992-01-01T00:00:00 UTC
     (the resolution of [datetime.utcnow()]); [datetime] differences are
     exact.
   - pyTMD (an external library) is a parameter of the prediction paths:
     [compute_tide_corrections] for GOT4.10 and [drift] for FES2022.  Each
     returns [Ok heights] or raises.
   - Python exceptions are the [Raise] branch of [result]; state is threaded
     explicitly through a small state/exception monad.
   - Decoded JSON is [JVal]; HTTP exchanges, [json.dumps]/[json.loads] and
     [calendar.timegm] of a parsed time string enter as parameters, with
     their outcome (a value or an exception). *)

From Stdlib Require Import ZArith QArith Qround List String Bool Lia.
Import ListNotations.

Open Scope Z_scope.

(* ------------------------------------------------------------------ *)
(** * app/config.py *)

Module Config.
Definition FORECAST_HOURS : nat := 168.
Definition TIDE_DATUM_OFFSET_CM : Z := 45.
Definition LATITUDE : Q := 284937 # 10000.
Definition LONGITUDE : Q := 345131 # 10000.
End Config.

(* ------------------------------------------------------------------ *)
(** * Exceptions and the state/exception monad *)

Inductive exn : Type :=
| ImportError
| KeyError
| ValueError
| TypeError
| JSONDecodeError
| OSError
| LibraryError.

Inductive result (A : Type) : Type :=
| Ok (a : A)
| Raise (e : exn).
Arguments Ok {A} a.
Arguments Raise {A} e.

(** A computation over a state [S] that may raise; the state reached at
    the raise point is kept, as in Python. *)
Definition M (S A : Type) : Type := S -> S * result A.

Definition ret {S A} (a : A) : M S A := fun s => (s, Ok a).
Definition throw {S A} (e : exn) : M S A := fun s => (s, Raise e).
Definition bind {S A B} (c : M S A) (k : A -> M S B) : M S B :=
  fun s => match c s with
           | (s', Ok a) => k a s'
           | (s', Raise e) => (s', Raise e)
           end.
Definition lift {S A} (r : result A) : M S A := fun s => (s, r).

Notation "x <- c ;; k" := (bind c (fun x => k))
  (at level 61, c at next level, right associativity).

(** [try: body  except Exception: return None] *)
Definition try_or_none {S A} (body : M S (option A)) : M S (option A) :=
  fun s => match body s with
           | (s', Ok v) => (s', Ok v)
           | (s', Raise _) => (s', Ok None)
           end.

(* ------------------------------------------------------------------ *)
(** * Rounding and unit conversion *)

(** Python 3 [round] on a float: nearest integer, ties to the even one. *)
Definition py_round (x : Q) : Z :=
  let f := Qfloor x in
  match Qcompare (x - inject_Z f)%Q (1 # 2) with
  | Lt => f
  | Gt => f + 1
  | Eq => if Z.even f then f else f + 1
  end.

(** The rounding named by the spec: ties away from zero. *)
Definition round_half_away_from_zero (x : Q) : Z :=
  if Qle_bool 0 x then Qfloor (x + (1 # 2))%Q
  else - Qfloor (- x + (1 # 2))%Q.

(** [a < b] on floats. *)
Definition Qlt_bool (a b : Q) : bool := negb (Qle_bool b a).

(* ------------------------------------------------------------------ *)
(** * IEEE 754 binary64 arithmetic

    A Python float is the rational it denotes; every arithmetic operation
    on floats is the exact operation followed by [fl], rounding to the
    nearest binary64 value with ties to the even significand (round to
    nearest even, as on every platform CPython runs on).  Conversions of
    an [int] to a float and [int / int] true division are correctly
    rounded in CPython, so they are [fl] of the exact value too. *)

(** [2 ^ e] for an integer exponent. *)
Definition pow2 (e : Z) : Q :=
  if 0 <=? e then inject_Z (2 ^ e) else 1 # Z.to_pos (2 ^ (- e)).

(** The exponent [k] with [2 ^ k <= |x| < 2 ^ (k + 1)], for [x <> 0]. *)
Definition Qlog2_floor (x : Q) : Z :=
  let n := Z.abs (Qnum x) in
  let d := Zpos (Qden x) in
  let k := Z.log2 n - Z.log2 d in
  if 0 <=? k then (if n <? d * 2 ^ k then k - 1 else k)
  else (if n * 2 ^ (- k) <? d then k - 1 else k).

(** Rounding to binary64: 53-bit significands, exponents down to the
    subnormal quantum [2 ^ -1074].  The magnitudes computed here (days,
    seconds and heights) stay far below the largest finite double, so
    overflow to infinity is not represented. *)
Definition fl (x : Q) : Q :=
  if Qeq_bool x 0 then 0%Q
  else
    let e := Z.max (Qlog2_floor x - 52) (-1074) in
    Qred (inject_Z (py_round (x / pow2 e)) * pow2 e).

(** C [fmod]: [vx - n * wx] with [n] the quotient truncated toward zero;
    the result is exactly representable, so no rounding. *)
Definition c_fmod (vx wx : Q) : Q :=
  let q := (vx / wx)%Q in
  let n := if Qle_bool 0 q then Qfloor q else - Qfloor (- q) in
  (vx - inject_Z n * wx)%Q.

(** CPython [float_floor_div], i.e. [_float_div_mod] of
    Objects/floatobject.c, for a non-zero divisor (both divisors below
    are non-zero constants); signed zeros are not distinguished:
<<
    mod = fmod(vx, wx);
    div = (vx - mod) / wx;
    if (mod) { if ((wx < 0) != (mod < 0)) { mod += wx; div -= 1.0; } }
    if (div) { floordiv = floor(div);
               if (div - floordiv > 0.5) floordiv += 1.0; }
    else floordiv = copysign(0.0, vx / wx);
>> *)
Definition py_floordiv (vx wx : Q) : Q :=
  let md := c_fmod vx wx in
  let div0 := fl (fl (vx - md) / wx) in
  let div := if negb (Qeq_bool md 0) && xorb (Qlt_bool wx 0) (Qlt_bool md 0)
             then fl (div0 - 1) else div0 in
  if Qeq_bool div 0 then 0%Q
  else
    let f := inject_Z (Qfloor div) in
    if Qlt_bool (1 # 2) (fl (div - f)) then fl (f + 1) else f.

(* ------------------------------------------------------------------ *)
(** * Unit conversion *)

(** [int(round(float(t) * 100)) + TIDE_DATUM_OFFSET_CM]: [t] is a
    float64 height from pyTMD ([float] is the identity on it), the
    product [float * int] is rounded to binary64, then Python's [round]
    (ties to even) and [int]. *)
Definition to_cm (offset : Z) (t : Q) : Z :=
  py_round (fl (t * 100)) + offset.

Definition convert (offset : Z) (tide : list Q) : list Z :=
  map (to_cm offset) tide.

(* ------------------------------------------------------------------ *)
(** * Time axes *)

Definition US_PER_S : Z := 1000000.
Definition US_PER_HOUR : Z := 3600000000.

(** [datetime(2000,1,1) - datetime(1992,1,1)] in seconds (2922 days). *)
Definition EPOCH_2000_S : Z := 252460800.

(** Reference: the current UTC hour floored, in seconds since 1992. *)
Definition floor_to_hour_s (now_us : Z) : Z := (now_us / US_PER_HOUR) * 3600.

(** [timedelta.total_seconds()]: the microsecond count divided by the
    integer 10**6 with [int / int] true division. *)
Definition total_seconds (delta_us : Z) : Q := fl (Qmake delta_us 1000000).

(** _compute_tides_got410, lines 45-49:
    [base_seconds = (base_seconds // 3600) * 3600]. *)
Definition got_base_seconds (now_us : Z) : Q :=
  let base_seconds := total_seconds (now_us - EPOCH_2000_S * US_PER_S) in
  fl (py_floordiv base_seconds 3600 * 3600).

(** Lines 52-54: [[base_seconds + i * 3600 for i in range(n)]]. *)
Definition got_delta_times (now_us : Z) (n : nat) : list Q :=
  let base_seconds := got_base_seconds now_us in
  map (fun i => fl (base_seconds + inject_Z (Z.of_nat i * 3600))) (seq 0 n).

(** compute_tides_fes2022, lines 71-74 (days since 1992-01-01):
    [base_days = (now - epoch_1992).total_seconds() / 86400.0] and
    [base_days = (base_days // (1/24)) * (1/24)]. *)
Definition fes_base_days (now_us : Z) : Q :=
  let base_days := fl (total_seconds now_us / 86400) in
  let one_24 := fl (1 # 24) in
  fl (py_floordiv base_days one_24 * one_24).

(** Line 79: [[base_days + i / 24.0 for i in range(n)]]. *)
Definition fes_times (now_us : Z) (n : nat) : list Q :=
  let base_days := fes_base_days now_us in
  map (fun i => fl (base_days + fl (inject_Z (Z.of_nat i) / 24))) (seq 0 n).

(* ------------------------------------------------------------------ *)
(** * The pyTMD interface used by the two prediction paths *)

(** A complex harmonic constant [amp * exp(1j * deg2rad(ph))], kept in
    polar form (amplitude in meters, phase in degrees). *)
Record Polar : Type := mkPolar { p_amp : Q; p_phase_deg : Q }.

Record PyTMD : Type := {
  (** [import pyTMD] succeeds *)
  pytmd_installed : bool;
  (** [pyTMD.compute_tide_corrections(lons, lats, delta_times, ...)] at the
      configured point with MODEL="GOT4.10" *)
  compute_tide_corrections : list Q -> result (list Q);
  (** [pyTMD.predict.drift(t, hc, constituents, corrections='FES')] *)
  drift : list Q -> list (list Polar) -> list string -> result (list Q)
}.

Definition import_pytmd (lib : PyTMD) : result unit :=
  if pytmd_installed lib then Ok tt else Raise ImportError.

(** numpy broadcasting of a binary elementwise operation on 1-D arrays. *)
Definition broadcast2 {A B C} (f : A -> B -> C) (xs : list A) (ys : list B)
  : result (list C) :=
  if Nat.eqb (List.length xs) (List.length ys) then Ok (map (fun p => f (fst p) (snd p)) (combine xs ys))
  else match xs, ys with
       | [x], _ => Ok (map (f x) ys)
       | _, [y] => Ok (map (fun x => f x y) xs)
       | _, _ => Raise ValueError
       end.

(** The [logger.info(... min(tide_cm), max(tide_cm) ...)] call: [min] of an
    empty list raises [ValueError]. *)
Definition log_range (tide_cm : list Z) : result unit :=
  match tide_cm with
  | [] => Raise ValueError
  | _ => Ok tt
  end.

Definition key {A} (o : option A) : result A :=
  match o with Some a => Ok a | None => Raise KeyError end.

(* ------------------------------------------------------------------ *)
(** * The persisted constants record and the FES2022 module state *)

(** A JSON object as read by [json.load]; a missing key is [None]. *)
Record Doc : Type := mkDoc {
  d_latitude : option Q;
  d_longitude : option Q;
  d_constituents : option (list string);
  d_amplitude : option (list Q);
  d_phase : option (list Q)
}.

Inductive FileContent : Type :=
| JsonDoc (d : Doc)
| Garbage      (* not valid JSON *)
| Unreadable   (* the file exists but [open] fails *)
| StatDenied.  (* [Path.exists()] itself raises: [stat] fails with an errno
                  other than ENOENT, ENOTDIR, EBADF and ELOOP, e.g. EACCES
                  on a directory of the path *)

(** Module globals of app/tides_fes2022.py: [_cached_constants], and the
    file system at [CACHE_FILE] ([None]: the file does not exist). *)
Record FesState : Type := mkFesState {
  cached_constants : option Doc;
  cache_file : option FileContent
}.

(** [_load_constants] *)
Definition load_constants : M FesState (option Doc) := fun s =>
  match cached_constants s with
  | Some d => (s, Ok (Some d))
  | None =>
      match cache_file s with
      | None => (s, Ok None)
      | Some StatDenied => (s, Raise OSError)    (* CACHE_FILE.exists() *)
      | Some Unreadable => (s, Raise OSError)
      | Some Garbage => (s, Raise JSONDecodeError)
      | Some (JsonDoc d) =>
          let s' := mkFesState (Some d) (cache_file s) in
          (* logger.info reads 'constituents', 'latitude', 'longitude' *)
          match d_constituents d, d_latitude d, d_longitude d with
          | Some _, Some _, Some _ => (s', Ok (Some d))
          | _, _, _ => (s', Raise KeyError)
          end
      end
  end.

(* ------------------------------------------------------------------ *)
(** * The two prediction paths and the dispatcher *)

(** [_compute_tides_got410], with the datum offset as a parameter. *)
Definition compute_tides_got410_with (lib : PyTMD) (offset : Z) (now_us : Z)
  : M FesState (option (list Z)) :=
  try_or_none (
    _ <- lift (import_pytmd lib) ;;
    let n := Config.FORECAST_HOURS in
    let delta_times := got_delta_times now_us n in
    tide <- lift (compute_tide_corrections lib delta_times) ;;
    let tide_cm := convert offset tide in
    _ <- lift (log_range tide_cm) ;;
    ret (Some tide_cm)).

(** [compute_tides_fes2022], with the datum offset as a parameter. *)
Definition compute_tides_fes2022_with (lib : PyTMD) (offset : Z) (now_us : Z)
  : M FesState (option (list Z)) :=
  try_or_none (
    _ <- lift (import_pytmd lib) ;;
    constants <- load_constants ;;
    match constants with
    | None => ret None
    | Some d =>
        constituents <- lift (key (d_constituents d)) ;;
        amp <- lift (key (d_amplitude d)) ;;
        ph <- lift (key (d_phase d)) ;;
        let n := Config.FORECAST_HOURS in
        let t := fes_times now_us n in
        hc_single <- lift (broadcast2 mkPolar amp ph) ;;
        let hc := repeat hc_single n in
        tide <- lift (drift lib t hc constituents) ;;
        let tide_cm := convert offset tide in
        _ <- lift (log_range tide_cm) ;;
        ret (Some tide_cm)
    end).

Definition compute_tides_got410 (lib : PyTMD) (now_us : Z) :=
  compute_tides_got410_with lib Config.TIDE_DATUM_OFFSET_CM now_us.

Definition compute_tides_fes2022 (lib : PyTMD) (now_us : Z) :=
  compute_tides_fes2022_with lib Config.TIDE_DATUM_OFFSET_CM now_us.

(** [compute_tides]: [TIDE_MODEL_NAME] is read from the environment
    variable TIDE_MODEL (default "GOT4.10"). *)
Definition compute_tides (lib : PyTMD) (TIDE_MODEL_NAME : string) (now_us : Z)
  : M FesState (option (list Z)) :=
  if String.eqb TIDE_MODEL_NAME "FES2022" then compute_tides_fes2022 lib now_us
  else compute_tides_got410 lib now_us.

(* ------------------------------------------------------------------ *)
(** * extract_fes2022_constants.py: the extraction loop *)

Definition CONSTITUENTS : list string :=
  ["2n2"; "eps2"; "j1"; "k1"; "k2"; "l2"; "lambda2"; "m2"; "m3"; "m4";
   "m6"; "m8"; "mf"; "mks2"; "mm"; "mn4"; "ms4"; "msf"; "msqm"; "mtm";
   "mu2"; "n2"; "n4"; "nu2"; "o1"; "p1"; "q1"; "r2"; "s1"; "s2"; "s4";
   "sa"; "ssa"; "t2"]%string.

(** Outcome of [pyTMD.io.FES.extract_constants] for one model file:
    it raises, or it yields [amp[0,0]] and [ph[0,0]], each possibly masked
    ([None]). *)
Inductive interp_result : Type :=
| IRaise
| IOk (amp : option Q) (ph : option Q).

Record ExtractEnv : Type := {
  (** [import pyTMD.io.FES] succeeds *)
  fes_io_installed : bool;
  (** [(MODEL_DIR / f'{c}_fes2022.nc').exists()] *)
  model_file_exists : string -> bool;
  fes_extract_constants : string -> interp_result
}.

(** The [results] dictionary. *)
Record Results : Type := mkResults {
  r_latitude : Q;
  r_longitude : Q;
  r_constituents : list string;
  r_amplitude : list Q;
  r_phase : list Q
}.

Definition results0 : Results :=
  mkResults Config.LATITUDE Config.LONGITUDE [] [] [].

(** [float(x) if not np.ma.is_masked(x) else 0.0] *)
Definition unmask (x : option Q) : Q :=
  match x with Some v => v | None => 0%Q end.

(** One iteration of [for i, c in enumerate(CONSTITUENTS)]. *)
Definition extract_step (env : ExtractEnv) (r : Results) (c : string) : Results :=
  if negb (model_file_exists env c) then r          (* MISSING: continue *)
  else
    match fes_extract_constants env c with
    | IRaise => r                                    (* except: print ERROR *)
    | IOk amp ph =>
        mkResults (r_latitude r) (r_longitude r)
          (r_constituents r ++ [c])
          (r_amplitude r ++ [unmask amp])
          (r_phase r ++ [unmask ph])
    end.

Definition extract_loop (env : ExtractEnv) : Results :=
  fold_left (extract_step env) CONSTITUENTS results0.

(* ------------------------------------------------------------------ *)
(** * Files on disk *)

Definition path := string.
Definition FS := path -> option string.

Definition fs_update (fs : FS) (p : path) (v : option string) : FS :=
  fun q => if String.eqb q p then v else fs q.

(** Where a save is interrupted: [open]/[mkstemp] fails, the JSON writer
    raises after [k] chunks, or [os.replace] fails. *)
Inductive fault : Type :=
| NoFault
| FailOpen
| FailWriteAfter (k : nat) (e : exn)
| FailReplace.

Definition write_budget (f : fault) : option (nat * exn) :=
  match f with FailWriteAfter k e => Some (k, e) | _ => None end.

(** [json.dump(obj, f)]: the encoder's chunks are written one at a time;
    the trace lists the file system after every write. *)
Fixpoint write_chunks (fs : FS) (p : path) (written : string)
    (chunks : list string) (budget : option (nat * exn)) : list FS * result unit :=
  match chunks with
  | [] => ([], Ok tt)
  | c :: cs =>
      match budget with
      | Some (O, e) => ([], Raise e)
      | _ =>
          let w := (written ++ c)%string in
          let fs' := fs_update fs p (Some w) in
          let budget' := match budget with
                         | Some (S k, e) => Some (k, e)
                         | b => b
                         end in
          let (tr, r) := write_chunks fs' p w cs budget' in
          (fs' :: tr, r)
      end
  end.

Definition final_state (fs0 : FS) (tr : list FS) : FS := last tr fs0.

(** extract_fes2022_constants.py lines 84-87:
    [with open(CACHE_FILE, 'w') as f: json.dump(results, f, indent=2)]. *)
Definition save_truncating (fs : FS) (p : path) (chunks : list string) (f : fault)
  : list FS * result unit :=
  match f with
  | FailOpen => ([], Raise OSError)
  | _ =>
      let fs1 := fs_update fs p (Some EmptyString) in
      let (tr, r) := write_chunks fs1 p EmptyString chunks (write_budget f) in
      (fs1 :: tr, r)
  end.

Definition EXTRACT_CACHE_FILE : path :=
  "tide-models/FES2022/dahab_constants.json"%string.

(** [extract_constants()]; [dump] is the chunked JSON encoding. *)
Definition extract_constants (env : ExtractEnv) (dump : Results -> list string)
    (fs : FS) (f : fault) : list FS * result unit :=
  if negb (fes_io_installed env) then ([], Raise ImportError)
  else save_truncating fs EXTRACT_CACHE_FILE (dump (extract_loop env)) f.

(** app/cache.py [CacheManager._save_to_disk], the body of the outer [try]:
    [mkstemp] in the cache directory creates [tmp]; on an exception while
    writing or replacing, [os.unlink(tmp_path)] and re-raise. *)
Definition save_atomic_body (fs : FS) (cache tmp : path) (chunks : list string)
    (f : fault) : list FS * result unit :=
  match f with
  | FailOpen => ([], Raise OSError)
  | _ =>
      let fs1 := fs_update fs tmp (Some EmptyString) in
      let (tr, r) := write_chunks fs1 tmp EmptyString chunks (write_budget f) in
      let fs2 := final_state fs1 tr in
      match r with
      | Raise e => (fs1 :: tr ++ [fs_update fs2 tmp None], Raise e)
      | Ok _ =>
          match f with
          | FailReplace => (fs1 :: tr ++ [fs_update fs2 tmp None], Raise OSError)
          | _ =>
              (* os.replace(tmp_path, CACHE_FILE) *)
              (fs1 :: tr ++ [fs_update (fs_update fs2 cache (fs2 tmp)) tmp None], Ok tt)
          end
      end
  end.

(** [_save_to_disk]: [except OSError] logs a warning; other exceptions
    propagate. *)
Definition save_to_disk (fs : FS) (cache tmp : path) (chunks : list string)
    (f : fault) : list FS * result unit :=
  let (tr, r) := save_atomic_body fs cache tmp chunks f in
  match r with
  | Raise OSError => (tr, Ok tt)
  | _ => (tr, r)
  end.

(* ------------------------------------------------------------------ *)
(** * Concrete library instances used to exercise the theorems *)

(** A pyTMD whose predictions are the constant height [h] (meters) at every
    requested time. *)
Definition lib_const (h : Q) : PyTMD := {|
  pytmd_installed := true;
  compute_tide_corrections := fun ts => Ok (map (fun _ => h) ts);
  drift := fun t _ _ => Ok (map (fun _ => h) t)
|}.

(** A [drift] that sums, at every time, the amplitudes of the columns
    paired with the given constituent names (each constituent at zero
    argument and unit nodal factor). *)
Definition sum_amps (row : list Polar) (cs : list string) : Q :=
  fold_right Qplus 0%Q (map (fun p => p_amp (fst p)) (combine row cs)).

Definition lib_zero_argument : PyTMD := {|
  pytmd_installed := true;
  compute_tide_corrections := fun ts => Ok (map (fun _ => 0%Q) ts);
  drift := fun t hc cs =>
    Ok (map (fun p => sum_amps (snd p) cs) (combine t hc))
|}.

(** 2023-09-09T01:46:40 UTC, in microseconds since 1992-01-01. *)
Definition NOW_EXAMPLE : Z := 1000000000000000.

(** 2036-11-09T02:00:00.000000 UTC (16384 days and two hours after
    1992-01-01), in microseconds since 1992-01-01. *)
Definition NOW_SLIP : Z := 1415584800000000.


(** A record with one amplitude for two phases. *)
Definition doc_mismatched : Doc :=
  mkDoc (Some Config.LATITUDE) (Some Config.LONGITUDE)
        (Some ["m2"; "s2"]%string) (Some [3 # 10]) (Some [0; 0]%Q).

(** All model files present; every constituent interpolates to
    (0.1 m, 0 deg) except m2, whose amplitude and phase come back masked. *)
Definition env_m2_masked : ExtractEnv := {|
  fes_io_installed := true;
  model_file_exists := fun _ => true;
  fes_extract_constants := fun c =>
    if String.eqb c "m2" then IOk None None else IOk (Some (1 # 10)) (Some 0%Q)
|}.

(** What [json.dumps] returns: the encoder's chunks concatenated. *)
Definition json_text (chunks : list string) : string :=
  fold_right String.append EmptyString chunks.

(** A file system where the constants file holds a previous record. *)
Definition fs_with_old_record : FS :=
  fun q => if String.eqb q EXTRACT_CACHE_FILE then Some "OLD"%string else None.

Definition dump_braces (_ : Results) : list string := ["{"; "}"]%string.

(** Whether the loop appends constituent [c], and the values it appends. *)
Definition kept (env : ExtractEnv) (c : string) : bool :=
  model_file_exists env c &&
  match fes_extract_constants env c with IRaise => false | IOk _ _ => true end.

Definition amp_of (env : ExtractEnv) (c : string) : Q :=
  match fes_extract_constants env c with IOk a _ => unmask a | IRaise => 0%Q end.

Definition ph_of (env : ExtractEnv) (c : string) : Q :=
  match fes_extract_constants env c with IOk _ p => unmask p | IRaise => 0%Q end.

(* ------------------------------------------------------------------ *)
(** * JSON values, Python dicts and exceptions beyond [exn] *)

(** A decoded JSON value; [JObj] holds a Python dict (keys unique, in
    insertion order).  JSON numbers, integer or not, are [JNum]. *)
#[warnings="-register-all"]
Inductive JVal : Type :=
| JNull
| JBool (b : bool)
| JNum (q : Q)
| JStr (s : string)
| JList (l : list JVal)
| JObj (kvs : list (string * JVal)).

(** [d.get(k)] *)
Fixpoint dict_get (k : string) (kvs : list (string * JVal)) : option JVal :=
  match kvs with
  | [] => None
  | (k', v) :: r => if String.eqb k k' then Some v else dict_get k r
  end.

(** [d[k] = v]: an existing key keeps its position. *)
Fixpoint dict_set (k : string) (v : JVal) (kvs : list (string * JVal))
  : list (string * JVal) :=
  match kvs with
  | [] => [(k, v)]
  | (k', v') :: r => if String.eqb k k' then (k', v) :: r else (k', v') :: dict_set k v r
  end.

Inductive pyexc : Type :=
| PyExn (e : exn)
| AttributeError
| OverflowError
| IndexError.

Inductive outcome (A : Type) : Type :=
| Returns (a : A)
| Raises (e : pyexc).
Arguments Returns {A} a.
Arguments Raises {A} e.

(** [obj[k]] on a decoded JSON value. *)
Definition getitem (o : JVal) (k : string) : outcome JVal :=
  match o with
  | JObj kvs =>
      match dict_get k kvs with
      | Some v => Returns v
      | None => Raises (PyExn KeyError)
      end
  | _ => Raises (PyExn TypeError)
  end.

(** The numbers Python arithmetic and comparison accept ([bool] is an
    [int]). *)
Definition num_of (v : JVal) : option Q :=
  match v with
  | JNum q => Some q
  | JBool b => Some (if b then 1%Q else 0%Q)
  | _ => None
  end.

(* ------------------------------------------------------------------ *)
(** * app/fetcher.py *)

(** [_to_int_list] on a list of numbers and [None]s ([float] is the
    identity on them). *)
Definition to_int_list (values : list (option Q)) : list Z :=
  map (fun v => match v with Some x => py_round x | None => 0 end) values.

(** [max(xs)]: the running maximum replaces the current one only when
    strictly greater. *)
Definition py_max (x : Q) (xs : list Q) : Q :=
  fold_left (fun m v => if Qlt_bool m v then v else m) xs x.

Fixpoint nums_of (l : list JVal) : option (list Q) :=
  match l with
  | [] => Some []
  | v :: r =>
      match num_of v, nums_of r with
      | Some q, Some qs => Some (q :: qs)
      | _, _ => None
      end
  end.

Definition not_null (v : JVal) : bool :=
  match v with JNull => false | _ => true end.

(** [hourly_dust[start:end]] for [start = day * 24], [end = start + 24]. *)
Definition day_slice (hourly : list JVal) (day : nat) : list JVal :=
  firstn 24 (skipn (day * 24) hourly).

(** [int(round(max(chunk)))] for a non-empty chunk; [max] over values
    that are not all numbers raises, or returns a non-number on which
    [round] raises. *)
Definition chunk_max (chunk : list JVal) : outcome Z :=
  match nums_of chunk with
  | Some (q :: qs) => Returns (py_round (py_max q qs))
  | _ => Raises (PyExn TypeError)
  end.

(** The loop [for day in range(7)] of [fetch_daily_dust]. *)
Fixpoint daily_loop (hourly : list JVal) (days : list nat) (acc : list Z)
  : outcome (list Z) :=
  match days with
  | [] => Returns acc
  | day :: ds =>
      let chunk := filter not_null (day_slice hourly day) in
      match chunk with
      | [] => daily_loop hourly ds acc
      | _ =>
          match chunk_max chunk with
          | Returns m => daily_loop hourly ds (acc ++ [m])
          | Raises e => Raises e
          end
      end
  end.

(** [fetch_daily_dust]; [resp] is the outcome of the HTTP exchange up to
    [resp.json()] (network errors, [raise_for_status], decoding). *)
Definition fetch_daily_dust (resp : outcome JVal) : option (list Z) :=
  match resp with
  | Raises _ => None
  | Returns data =>
      match getitem data "hourly" with
      | Raises _ => None
      | Returns h =>
          match getitem h "dust" with
          | Returns (JList hourly_dust) =>
              match daily_loop hourly_dust (seq 0 7) [] with
              | Returns [] => None
              | Returns l => Some l
              | Raises _ => None
              end
          (* a string slices into characters, on which [round] raises (or
             there is no data); other values cannot be sliced *)
          | _ => None
          end
      end
  end.

(** [get_client] / [close_client]: the module-level [_client].  A client
    is an identity and its [is_closed] flag; [next_id] numbers the
    [httpx.AsyncClient] objects created. *)
Record HttpClient : Type := mkClient { client_id : nat; is_closed : bool }.

Record FetcherState : Type := mkFetcher { f_client : option HttpClient; next_id : nat }.

Definition new_client (st : FetcherState) : FetcherState * HttpClient :=
  let c := mkClient (next_id st) false in
  (mkFetcher (Some c) (S (next_id st)), c).

Definition get_client (st : FetcherState) : FetcherState * HttpClient :=
  match f_client st with
  | Some c => if is_closed c then new_client st else (st, c)
  | None => new_client st
  end.

(** [await _client.aclose()] closes the object and the global is reset. *)
Definition close_client (st : FetcherState) : FetcherState :=
  match f_client st with
  | Some c => if negb (is_closed c) then mkFetcher None (next_id st) else st
  | None => st
  end.

(* ------------------------------------------------------------------ *)
(** * app/cache.py *)

Definition POLL_INTERVAL_SECONDS : Q := 1800.

(** The data directory's [cache.json]. *)
Definition CACHE_FILE : path := "data/cache.json"%string.

(** [_data] ([None] is Python's [None]) and [_last_updated]; times are
    [time.time()] seconds. *)
Record CacheManager : Type := mkCache { cm_data : option JVal; cm_last_updated : Q }.

(** The value of [get_age_seconds]: [float('inf')] or a finite float. *)
Inductive Age : Type := AgeInf | AgeFin (a : Q).

Definition has_data (c : CacheManager) : bool :=
  match cm_data c with Some _ => true | None => false end.

Definition get_age_seconds (c : CacheManager) (now : Q) : Age :=
  if Qeq_bool (cm_last_updated c) 0 then AgeInf else AgeFin (now - cm_last_updated c).

Definition needs_refresh (c : CacheManager) (now : Q) : bool :=
  if negb (has_data c) then true
  else match get_age_seconds c now with
       | AgeInf => true
       | AgeFin a => Qlt_bool POLL_INTERVAL_SECONDS a
       end.

(** [int(x)] on a float: truncation toward zero; [int(inf)] raises. *)
Definition py_int_age (a : Age) : outcome Z :=
  match a with
  | AgeInf => Raises OverflowError
  | AgeFin q => Returns (Z.quot (Qnum q) (Zpos (Qden q)))
  end.

(** [{**self._data, "age": int(self.get_age_seconds())}]; [**] needs a
    mapping. *)
Definition get_response (c : CacheManager) (now : Q) : outcome (option JVal) :=
  match cm_data c with
  | None => Returns None
  | Some (JObj kvs) =>
      match py_int_age (get_age_seconds c now) with
      | Returns n => Returns (Some (JObj (dict_set "age" (JNum (inject_Z n)) kvs)))
      | Raises e => Raises e
      end
  | Some _ => Raises (PyExn TypeError)
  end.

(** [json.load] followed by [stored.get(...)] as in [_load_from_disk];
    [loads] is the decoder ([JSONDecodeError] on malformed text). *)
Definition load_stored (c : CacheManager) (text : string) (loads : string -> outcome JVal)
  : outcome CacheManager :=
  match loads text with
  | Raises (PyExn JSONDecodeError) | Raises (PyExn OSError) => Returns c
  | Raises e => Raises e
  | Returns (JObj kvs) =>
      (* JSON null decodes to None *)
      let data := match dict_get "data" kvs with
                  | None | Some JNull => None
                  | Some v => Some v
                  end in
      (* [time.time() - self._last_updated] needs a number *)
      match dict_get "last_updated" kvs with
      | None => Returns (mkCache data 0)
      | Some v =>
          match num_of v with
          | Some q => Returns (mkCache data q)
          | None => Raises (PyExn TypeError)
          end
      end
  (* [stored.get] on a list, string or number *)
  | Returns _ => Raises AttributeError
  end.

(** [CacheManager()]: the constructor and [_load_from_disk]. *)
Definition cache_init (fs : FS) (loads : string -> outcome JVal) : outcome CacheManager :=
  let c := mkCache None 0 in
  match fs CACHE_FILE with
  | None => Returns c
  | Some text => load_stored c text loads
  end.

(** The record [_save_to_disk] serialises. *)
Definition stored_of (c : CacheManager) : JVal :=
  JObj [("data"%string, match cm_data c with Some v => v | None => JNull end);
        ("last_updated"%string, JNum (cm_last_updated c))].

(** [update(data)]: memory first, then [_save_to_disk] ([tmp] is the
    [mkstemp] name, [dumps] the encoder's chunks, [f] where the save is
    interrupted).  Returns the new manager, the disk trace and the outcome. *)
Definition cache_update (c : CacheManager) (fs : FS) (data : JVal) (now : Q)
    (tmp : path) (dumps : JVal -> list string) (f : fault)
  : CacheManager * list FS * result unit :=
  let c' := mkCache (match data with JNull => None | v => Some v end) now in
  let (tr, r) := save_to_disk fs CACHE_FILE tmp (dumps (stored_of c')) f in
  (c', tr, r).

(* ------------------------------------------------------------------ *)
(** * app/main.py *)

Definition TZ_OFFSET_MINUTES : Z := 120.

(** The dict [fetch_weather] returns. *)
Record Weather : Type := mkWeather {
  w_time : list string;
  w_wind : list Z;
  w_wind_dir : list Z;
  w_gust : list Z;
  w_temp : list Z }.

(** What a refresh observes of the outside world: the outcome of
    [fetch_weather], the body seen by [fetch_sea_temperature] reduced to
    its value, the HTTP exchange of [fetch_daily_dust], the tide library
    and model name, the clocks ([datetime.utcnow()] in microseconds,
    [time.time()] in seconds), [calendar.timegm(strptime(...))] of a
    local time string, and the saving parameters of [update]. *)
Record RefreshEnv : Type := mkRefreshEnv {
  env_weather : outcome Weather;
  env_sea_temp : option (list Z);
  env_dust_resp : outcome JVal;
  env_lib : PyTMD;
  env_model : string;
  env_now_us : Z;
  env_now : Q;
  env_timegm : string -> outcome Z;
  env_tmp : path;
  env_dumps : JVal -> list string;
  env_save_fault : fault }.

(** The process state: the [cache] object, the disk and the FES2022
    module's cached constants. *)
Record AppState : Type := mkApp {
  app_cache : CacheManager;
  app_disk : FS;
  app_fes : FesState }.

Definition int_list (l : list Z) : JVal := JList (map (fun z => JNum (inject_Z z)) l).

(** The [result] dict of [_do_refresh]. *)
Definition build_payload (ts : Z) (w : Weather)
    (dust_daily sea_temp tide_data : option (list Z)) : JVal :=
  let r0 := [("ts"%string, JNum (inject_Z ts));
             ("tz_offset"%string, JNum (inject_Z TZ_OFFSET_MINUTES));
             ("time"%string, JList (map JStr (w_time w)));
             ("wind"%string, int_list (w_wind w));
             ("wind_dir"%string, int_list (w_wind_dir w));
             ("gust"%string, int_list (w_gust w));
             ("temp"%string, int_list (w_temp w))] in
  let r1 := match dust_daily with Some l => dict_set "dust_daily" (int_list l) r0 | None => r0 end in
  let r2 := match sea_temp with Some l => dict_set "sea_temp" (int_list l) r1 | None => r1 end in
  let r3 := match tide_data with Some l => dict_set "tide" (int_list l) r2 | None => r2 end in
  JObj r3.

(** [_do_refresh]. *)
Definition do_refresh (env : RefreshEnv) (st : AppState) : AppState * outcome JVal :=
  (* asyncio.gather: an exception of fetch_weather propagates *)
  match env_weather env with
  | Raises e => (st, Raises e)
  | Returns w =>
      let sea_temp := env_sea_temp env in
      let dust_daily := fetch_daily_dust (env_dust_resp env) in
      let (fes', tr) := compute_tides (env_lib env) (env_model env) (env_now_us env) (app_fes st) in
      let tide_data := match tr with Ok o => o | Raise _ => None end in
      let st1 := mkApp (app_cache st) (app_disk st) fes' in
      match w_time w with
      | [] => (st1, Raises IndexError)
      | t0 :: _ =>
          match env_timegm env t0 with
          | Raises e => (st1, Raises e)
          | Returns secs =>
              let ts := secs - TZ_OFFSET_MINUTES * 60 in
              let result := build_payload ts w dust_daily sea_temp tide_data in
              let '(c', trace, r) :=
                cache_update (app_cache st) (app_disk st) result (env_now env)
                  (env_tmp env) (env_dumps env) (env_save_fault env) in
              let st2 := mkApp c' (final_state (app_disk st) trace) fes' in
              match r with
              | Ok _ => (st2, Returns result)
              | Raise e => (st2, Raises (PyExn e))
              end
          end
      end
  end.

(** [refresh_if_needed], run to completion: the check, the re-check under
    the lock, and [except Exception] around [_do_refresh]. *)
Definition refresh_if_needed (env : RefreshEnv) (st : AppState) : AppState :=
  if negb (needs_refresh (app_cache st) (env_now env)) then st
  else if negb (needs_refresh (app_cache st) (env_now env)) then st
  else fst (do_refresh env st).

(** The status code and body of [get_conditions] (the refresh it schedules
    runs after the response is built). *)
Definition get_conditions (c : CacheManager) (now : Q) : outcome (Z * JVal) :=
  match get_response c now with
  | Raises e => Raises e
  | Returns None =>
      Returns (503, JObj [("error"%string, JStr "Data not yet available, try again shortly")])
  | Returns (Some r) => Returns (200, r)
  end.

(** The body of [health]. *)
Definition health (c : CacheManager) (now : Q) : outcome JVal :=
  let age := if has_data c
             then match py_int_age (get_age_seconds c now) with
                  | Returns n => Returns (JNum (inject_Z n))
                  | Raises e => Raises e
                  end
             else Returns JNull in
  match age with
  | Raises e => Raises e
  | Returns a =>
      Returns (JObj [("status"%string, JStr (if has_data c then "ok" else "warming_up"));
                     ("has_data"%string, JBool (has_data c));
                     ("cache_age_seconds"%string, a);
                     ("needs_refresh"%string, JBool (needs_refresh c now))])
  end.

(* ------------------------------------------------------------------ *)
(** * verify_fes2022_installation and verify_fes2022.py *)

(** The fields [cache_exists], [constituents_count], [latitude],
    [longitude] (absent: [None]) and [ready]. *)
Record VerifyStatus : Type := mkStatus {
  vs_cache_exists : bool;
  vs_constituents_count : nat;
  vs_latitude : option Q;
  vs_longitude : option Q;
  vs_ready : bool }.

(** [verify_fes2022_installation]; [except Exception] only records the
    message, so a failing step leaves the fields set so far.  The two
    [CACHE_FILE.exists()] calls (lines 120 and 125) see the same file
    system. *)
Definition verify_fes2022_installation : M FesState VerifyStatus := fun s =>
  match cache_file s with
  (* [CACHE_FILE.exists()] at line 120, outside the [try] *)
  | Some StatDenied => (s, Raise OSError)
  | None => (s, Ok (mkStatus false 0 None None false))
  | Some _ =>
      let (s', r) := load_constants s in
      match r with
      | Raise _ | Ok None => (s', Ok (mkStatus true 0 None None false))
      | Ok (Some d) =>
          match d_constituents d with
          | None => (s', Ok (mkStatus true 0 None None false))
          | Some cs =>
              let n := List.length cs in
              match d_latitude d, d_longitude d with
              | Some la, Some lo => (s', Ok (mkStatus true n (Some la) (Some lo) (8 <=? n)%nat))
              | Some la, None => (s', Ok (mkStatus true n (Some la) None false))
              | None, _ => (s', Ok (mkStatus true n None None false))
              end
          end
      end
  end.

(** The exit code of [main] in verify_fes2022.py; printing
    [status['longitude']] after a non-zero latitude raises when the
    longitude is absent. *)
Definition verify_main (lib : PyTMD) (now_us : Z) : M FesState Z :=
  status <- verify_fes2022_installation ;;
  _ <- match vs_latitude status, vs_longitude status with
       | Some la, None => if Qeq_bool la 0 then ret tt else throw KeyError
       | _, _ => ret tt
       end ;;
  if vs_ready status then
    result <- compute_tides_fes2022 lib now_us ;;
    match result with
    | Some (_ :: _) => ret 0
    | _ => ret 1
    end
  else ret 1.

(** A successful air-quality exchange whose [hourly.dust] array is
    [hourly]. *)
Definition dust_response (hourly : list JVal) : outcome JVal :=
  Returns (JObj [("hourly"%string, JObj [("dust"%string, JList hourly)])]).

(** A record with eight constituents. *)
Definition doc_eight : Doc :=
  mkDoc (Some Config.LATITUDE) (Some Config.LONGITUDE)
        (Some ["m2"; "s2"; "n2"; "k2"; "k1"; "o1"; "p1"; "q1"]%string)
        (Some (repeat (1 # 10) 8)) (Some (repeat 0%Q 8)).

Definition weather_example : Weather :=
  mkWeather ["2026-01-30T01:00"%string; "2026-01-30T02:00"%string]
            [12; 14] [350; 355] [18; 20] [24; 23].

(** A refresh environment with the GOT4.10 model, a constant tide of
    0.30 m, no sea temperature, and a successful save. *)
Definition env_example (w : outcome Weather) : RefreshEnv :=
  mkRefreshEnv w None (dust_response [JNum 40; JNull]) (lib_const (3 # 10))
    "GOT4.10"%string NOW_EXAMPLE 1769734800%Q
    (fun _ => Returns 1769734800) "data/tmpa1b2.tmp"%string
    (fun _ => ["{}"%string]) NoFault.

(* ================================================================== *)
(** * Lemmas *)

From Stdlib Require Import Lqa.

Lemma got_success_inv lib off now s s' hs :
  compute_tides_got410_with lib off now s = (s', Ok (Some hs)) ->
  exists tide, compute_tide_corrections lib (got_delta_times now Config.FORECAST_HOURS) = Ok tide
          /\ hs = convert off tide /\ s' = s.
Proof.
  unfold compute_tides_got410_with, try_or_none, bind, lift, ret.
  destruct (import_pytmd lib); [|congruence].
  destruct (compute_tide_corrections lib _) as [tide|]; [|congruence].
  destruct (log_range (convert off tide)); [|congruence].
  intros E; inversion E; subst; eauto.
Qed.
Lemma fes_success_inv lib off now s s' hs :
  compute_tides_fes2022_with lib off now s = (s', Ok (Some hs)) ->
  exists d cs amp ph hc tide,
    snd (load_constants s) = Ok (Some d) /\ s' = fst (load_constants s) /\
    d_constituents d = Some cs /\ d_amplitude d = Some amp /\ d_phase d = Some ph /\
    broadcast2 mkPolar amp ph = Ok hc /\
    drift lib (fes_times now Config.FORECAST_HOURS) (repeat hc Config.FORECAST_HOURS) cs = Ok tide
    /\ hs = convert off tide.
Proof.
  unfold compute_tides_fes2022_with, try_or_none, bind, lift, ret.
  destruct (import_pytmd lib); [|congruence].
  destruct (load_constants s) as [s1 [[d|]|]] eqn:L; [|congruence|congruence].
  unfold key.
  destruct (d_constituents d) as [cs|] eqn:C; [|congruence].
  destruct (d_amplitude d) as [amp|] eqn:A; [|congruence].
  destruct (d_phase d) as [ph|] eqn:P; [|congruence].
  destruct (broadcast2 mkPolar amp ph) as [hc|] eqn:B; [|congruence].
  destruct (drift lib _ _ cs) as [tide|] eqn:D; [|congruence].
  destruct (log_range (convert off tide)); [|congruence].
  intros E; inversion E; subst. exists d, cs, amp, ph, hc, tide. repeat split; try assumption; rewrite L; reflexivity.
Qed.
Lemma length_convert off tide : List.length (convert off tide) = List.length tide.
Proof. apply length_map. Qed.

Lemma length_fes_times now n : List.length (fes_times now n) = n.
Proof. unfold fes_times. cbv zeta. rewrite length_map, length_seq. reflexivity. Qed.


Lemma py_round_nearest x :
  (inject_Z (py_round x) - (1 # 2) <= x <= inject_Z (py_round x) + (1 # 2))%Q /\
  ((x - inject_Z (py_round x) == 1 # 2 \/ inject_Z (py_round x) - x == 1 # 2)%Q ->
   Z.even (py_round x) = true).
Proof.
  pose proof (Qfloor_le x) as Hle. pose proof (Qlt_floor x) as Hlt.
  unfold py_round. set (f := Qfloor x) in *.
  rewrite inject_Z_plus in Hlt. change (inject_Z 1) with 1%Q in Hlt.
  destruct (Qcompare_spec (x - inject_Z f) (1 # 2)) as [E|L|G].
  - destruct (Z.even f) eqn:Ev.
    + split; [lra|auto].
    + rewrite inject_Z_plus. change (inject_Z 1) with 1%Q. split; [lra|].
      intros _. rewrite Z.even_add, Ev. reflexivity.
  - split; [lra|]. intros [H|H]; lra.
  - rewrite inject_Z_plus. change (inject_Z 1) with 1%Q. split; [lra|]. intros [H|H]; lra.
Qed.

Lemma nth_map_in {A B} (f : A -> B) l t d d0 : (t < List.length l)%nat ->
  nth t (map f l) d = f (nth t l d0).
Proof.
  intros H. rewrite nth_indep with (d' := f d0) by (rewrite length_map; lia).
  apply map_nth.
Qed.

Lemma convert_nth_shift tide X t : (t < List.length tide)%nat ->
  nth t (convert X tide) 0 - nth t (convert 0 tide) 0 = X.
Proof.
  intros H. unfold convert.
  rewrite !(nth_map_in _ _ _ _ 0%Q H). unfold to_cm. lia.
Qed.

(* ================================================================== *)
(** * Claims *)

(** C1 (code bug).  At 2036-11-09T02:00:00.000000 UTC, an exact hour
    boundary, the current hour floored is 02:00, and the GOT4.10 path
    requests its heights at 02:00, 03:00, ... exactly.  The FES2022 path
    rounds to the hour with the float expression
    [(base_days // (1/24)) * (1/24)]: [1/24] is a double slightly below
    one hour, so the floor division lands one step short and every one of
    its 168 requested times, to the nearest second, is one hour early; the
    first is 01:00.  Every successful FES2022 prediction at that instant
    is synthesized on this shifted axis.  One microsecond later the
    FES2022 axis starts at 02:00. *)
Theorem fes_hour_floor_slip :
  let now := NOW_SLIP in
  let td := fes_times now Config.FORECAST_HOURS in
  let ts := got_delta_times now Config.FORECAST_HOURS in
  floor_to_hour_s now * US_PER_S = now /\
  List.length td = Config.FORECAST_HOURS /\
  map (fun t => py_round (t * 86400)%Q) td
    = map (fun i => floor_to_hour_s now - 3600 + 3600 * Z.of_nat i)
          (seq 0 Config.FORECAST_HOURS) /\
  py_round (nth 0 td 0 * 86400)%Q = floor_to_hour_s now - 3600 /\
  ~ (nth 0 td 0 * 86400 == inject_Z (floor_to_hour_s now))%Q /\
  py_round (nth 0 (fes_times (now + 1) Config.FORECAST_HOURS) 0 * 86400)%Q
    = floor_to_hour_s now /\
  ts = map (fun i => inject_Z (floor_to_hour_s now - EPOCH_2000_S + 3600 * Z.of_nat i))
           (seq 0 Config.FORECAST_HOURS) /\
  (forall lib s s' hs, compute_tides_fes2022 lib now s = (s', Ok (Some hs)) ->
     exists hc cs tide, drift lib td hc cs = Ok tide /\
                        hs = convert Config.TIDE_DATUM_OFFSET_CM tide).
Proof.
  intros now td ts.
  split; [vm_compute; reflexivity|].
  split; [apply length_fes_times|].
  split; [vm_compute; reflexivity|].
  split; [vm_compute; reflexivity|].
  split; [vm_compute; discriminate|].
  split; [vm_compute; reflexivity|].
  split; [vm_compute; reflexivity|].
  intros lib s s' hs E. apply fes_success_inv in E
    as (d & cs & amp & ph & hc & tide & _ & _ & _ & _ & _ & _ & T & ->).
  exists (repeat hc Config.FORECAST_HOURS), cs, tide. split; [exact T|reflexivity].
Qed.

(** C2 (as stated).  pyTMD returns float64 heights.  For the double
    nearest 0.025 (the value of the literal [0.025]), the float product
    [float(t) * 100] is exactly 2.5, and the code gives
    [round(2.5) + 45 = 2 + 45 = 47]; rounding half away from zero, of the
    exact product or of the float product, gives 3 + 45 = 48. *)
Lemma to_cm_rounds_half_to_even :
  fl (1 # 40) = 3602879701896397 # 144115188075855872 /\
  fl (fl (1 # 40) * 100) = 5 # 2 /\
  compute_tides_got410 (lib_const (fl (1 # 40))) NOW_EXAMPLE (mkFesState None None)
    = (mkFesState None None, Ok (Some (repeat 47 Config.FORECAST_HOURS))) /\
  round_half_away_from_zero (fl (1 # 40) * 100)%Q + Config.TIDE_DATUM_OFFSET_CM = 48 /\
  round_half_away_from_zero (fl (fl (1 # 40) * 100)) + Config.TIDE_DATUM_OFFSET_CM = 48.
Proof. repeat split; vm_compute; reflexivity. Qed.

(** C2 (amended).  Every value of a successful prediction is
    [round(fl(h * 100)) + TIDE_DATUM_OFFSET_CM] for the synthesized float
    height [h] in meters at the same index: [fl(h * 100)] is the float
    product (the exact product rounded to the nearest double) and [round]
    is Python's (nearest integer, ties to the even one).  The double
    nearest 0.30 gives 30 cm before the offset and 75 cm after it; the
    double nearest 0.025 gives a product of exactly 2.5, hence 2 cm and
    47 cm. *)
Theorem prediction_cm_conversion (lib : PyTMD) (now_us : Z) (s s' : FesState) (hs : list Z) :
  (compute_tides_got410 lib now_us s = (s', Ok (Some hs)) ->
   exists tide, compute_tide_corrections lib (got_delta_times now_us Config.FORECAST_HOURS) = Ok tide /\
     hs = map (fun h => py_round (fl (h * 100)) + Config.TIDE_DATUM_OFFSET_CM) tide) /\
  (compute_tides_fes2022 lib now_us s = (s', Ok (Some hs)) ->
   exists hc cs tide, drift lib (fes_times now_us Config.FORECAST_HOURS) hc cs = Ok tide /\
     hs = map (fun h => py_round (fl (h * 100)) + Config.TIDE_DATUM_OFFSET_CM) tide) /\
  (forall x : Q,
    (inject_Z (py_round x) - (1 # 2) <= x <= inject_Z (py_round x) + (1 # 2))%Q /\
    ((x - inject_Z (py_round x) == 1 # 2 \/ inject_Z (py_round x) - x == 1 # 2)%Q ->
     Z.even (py_round x) = true)) /\
  fl (3 # 10) = 5404319552844595 # 18014398509481984 /\
  py_round (fl (fl (3 # 10) * 100)) = 30 /\
  to_cm Config.TIDE_DATUM_OFFSET_CM (fl (3 # 10)) = 75 /\
  fl (fl (1 # 40) * 100) = 5 # 2 /\
  to_cm Config.TIDE_DATUM_OFFSET_CM (fl (1 # 40)) = 47.
Proof.
  split; [|split; [|split]].
  - intros E. apply got_success_inv in E as (tide & T & -> & _). exists tide. auto.
  - intros E. apply fes_success_inv in E
      as (d & cs & amp & ph & hc & tide & _ & _ & _ & _ & _ & _ & T & ->).
    exists (repeat hc Config.FORECAST_HOURS), cs, tide. auto.
  - apply py_round_nearest.
  - repeat split; vm_compute; reflexivity.
Qed.

(** C3.  For both prediction paths, two successful runs on the same
    library and state that differ only in the datum offset ([X] and 0)
    return series of the same length whose entries differ by exactly [X]
    at every index. *)
Theorem datum_offset_shift
    (path : PyTMD -> Z -> Z -> M FesState (option (list Z)))
    (lib : PyTMD) (now_us X : Z) (s s1 s2 : FesState) (a b : list Z) :
  path = compute_tides_got410_with \/ path = compute_tides_fes2022_with ->
  path lib X now_us s = (s1, Ok (Some a)) ->
  path lib 0 now_us s = (s2, Ok (Some b)) ->
  List.length a = List.length b /\
  forall t, (t < List.length a)%nat -> nth t a 0 - nth t b 0 = X.
Proof.
  intros [->| ->] Ea Eb.
  - apply got_success_inv in Ea as (ta & Ta & -> & _).
    apply got_success_inv in Eb as (tb & Tb & -> & _).
    rewrite Ta in Tb. inversion Tb; subst tb.
    split; [rewrite !length_convert; reflexivity|].
    intros t Ht. rewrite length_convert in Ht. apply convert_nth_shift; exact Ht.
  - apply fes_success_inv in Ea
      as (da & csa & ampa & pha & hca & ta & La & _ & Ca & Aa & Pa & Ba & Ta & ->).
    apply fes_success_inv in Eb
      as (db & csb & ampb & phb & hcb & tb & Lb & _ & Cb & Ab & Pb & Bb & Tb & ->).
    rewrite La in Lb. inversion Lb; subst db.
    rewrite Ca in Cb; rewrite Aa in Ab; rewrite Pa in Pb.
    inversion Cb; inversion Ab; inversion Pb; subst csb ampb phb.
    rewrite Ba in Bb. inversion Bb; subst hcb.
    rewrite Ta in Tb. inversion Tb; subst tb.
    split; [rewrite !length_convert; reflexivity|].
    intros t Ht. rewrite length_convert in Ht. apply convert_nth_shift; exact Ht.
Qed.

(** Both GOT4.10 runs at a constant synthesized height of 0 m, offsets
    45 and 0. *)
Lemma datum_offset_shift_witness :
  List.length (repeat 45 Config.FORECAST_HOURS) = List.length (repeat 0 Config.FORECAST_HOURS) /\
  nth 3 (repeat 45 Config.FORECAST_HOURS) 0 - nth 3 (repeat 0 Config.FORECAST_HOURS) 0 = 45.
Proof.
  destruct (datum_offset_shift compute_tides_got410_with (lib_const 0) NOW_EXAMPLE 45
              (mkFesState None None) (mkFesState None None) (mkFesState None None)
              (repeat 45 Config.FORECAST_HOURS) (repeat 0 Config.FORECAST_HOURS)
              (or_introl eq_refl)
              ltac:(vm_compute; reflexivity) ltac:(vm_compute; reflexivity)) as [L H].
  split; [exact L|]. apply H. rewrite repeat_length. unfold Config.FORECAST_HOURS. lia.
Defined.


Lemma try_or_none_ok {S A} (body : M S (option A)) s :
  exists s' v, try_or_none body s = (s', Ok v).
Proof.
  unfold try_or_none. destruct (body s) as [s' [v|e]]; eauto.
Qed.

Lemma try_or_none_raise {S A} (body : M S (option A)) s s' e :
  body s = (s', Raise e) -> try_or_none body s = (s', Ok None).
Proof. unfold try_or_none. intros ->. reflexivity. Qed.

Lemma compute_tides_never_raises lib name now s :
  exists s' o, compute_tides lib name now s = (s', Ok o).
Proof.
  unfold compute_tides, compute_tides_fes2022, compute_tides_fes2022_with,
    compute_tides_got410, compute_tides_got410_with.
  destruct (String.eqb name "FES2022"); apply try_or_none_ok.
Qed.





(** C7 (as stated).  A record read from disk with one amplitude and two
    phases is not rejected: numpy broadcasts the single amplitude over the
    two phases and the prediction returns a series. *)
Lemma fes_broadcasts_mismatched_record :
  compute_tides_fes2022 lib_zero_argument NOW_EXAMPLE
      (mkFesState None (Some (JsonDoc doc_mismatched)))
    = (mkFesState (Some doc_mismatched) (Some (JsonDoc doc_mismatched)),
       Ok (Some (repeat 105 Config.FORECAST_HOURS))).
Proof. vm_compute. reflexivity. Qed.

Lemma broadcast2_mismatch {A B C} (f : A -> B -> C) xs ys :
  List.length xs <> List.length ys -> List.length xs <> 1%nat -> List.length ys <> 1%nat ->
  broadcast2 f xs ys = Raise ValueError.
Proof.
  intros H1 H2 H3. unfold broadcast2.
  destruct (Nat.eqb_spec (List.length xs) (List.length ys)); [contradiction|].
  destruct xs as [|x [|x' xs]]; destruct ys as [|y [|y' ys]]; simpl in *;
    try reflexivity; lia.
Qed.

Lemma broadcast2_single {A B C} (f : A -> B -> C) xs ys :
  List.length xs = 1%nat \/ List.length ys = 1%nat ->
  exists zs, broadcast2 f xs ys = Ok zs /\
    List.length zs = (if Nat.eqb (List.length xs) 1 then List.length ys else List.length xs).
Proof.
  intros H. unfold broadcast2.
  destruct (Nat.eqb_spec (List.length xs) (List.length ys)) as [E|E].
  - eexists; split; [reflexivity|].
    rewrite length_map, length_combine, <- E, Nat.min_id.
    destruct (Nat.eqb_spec (List.length xs) 1); lia.
  - destruct xs as [|x [|x' xs]].
    + destruct ys as [|y [|y' ys]]; simpl in *; try lia.
      eexists; split; [reflexivity|]. reflexivity.
    + eexists; split; [reflexivity|]. simpl. rewrite length_map. reflexivity.
    + destruct ys as [|y [|y' ys]]; simpl in *; try lia.
      eexists; split; [reflexivity|]. simpl. rewrite !length_map. reflexivity.
Qed.

(** C7 (amended).  The FES2022 path has no explicit length check on the
    loaded amplitude and phase arrays.  When their lengths differ and
    neither has length 1, numpy broadcasting raises and the call returns
    None; when one of them has length 1 it is broadcast against the other
    and the prediction proceeds with the broadcast harmonic constants. *)
Theorem fes_record_length_handling (lib : PyTMD) (now_us : Z) (s : FesState)
    (d : Doc) (cs : list string) (amp ph : list Q) :
  pytmd_installed lib = true ->
  snd (load_constants s) = Ok (Some d) ->
  d_constituents d = Some cs -> d_amplitude d = Some amp -> d_phase d = Some ph ->
  (List.length amp <> List.length ph -> List.length amp <> 1%nat -> List.length ph <> 1%nat ->
   compute_tides_fes2022 lib now_us s = (fst (load_constants s), Ok None)) /\
  (List.length amp = 1%nat \/ List.length ph = 1%nat ->
   exists hc, broadcast2 mkPolar amp ph = Ok hc /\
     List.length hc = (if Nat.eqb (List.length amp) 1 then List.length ph else List.length amp) /\
     forall tide, drift lib (fes_times now_us Config.FORECAST_HOURS)
                            (repeat hc Config.FORECAST_HOURS) cs = Ok tide ->
                  tide <> [] ->
                  compute_tides_fes2022 lib now_us s
                  = (fst (load_constants s), Ok (Some (convert Config.TIDE_DATUM_OFFSET_CM tide)))).
Proof.
  intros Hi Hl Hc Ha Hp.
  unfold compute_tides_fes2022, compute_tides_fes2022_with, try_or_none, bind, lift, ret.
  unfold import_pytmd. rewrite Hi.
  destruct (load_constants s) as [s1 r]. simpl in Hl. subst r. simpl fst.
  unfold key. rewrite Hc, Ha, Hp. split.
  - intros H1 H2 H3. rewrite (broadcast2_mismatch mkPolar amp ph H1 H2 H3). reflexivity.
  - intros H. destruct (broadcast2_single mkPolar amp ph H) as (hc & B & L).
    exists hc. split; [exact B|]. split; [exact L|].
    intros tide D Ne. rewrite B, D.
    destruct tide as [|h tide]; [contradiction|]. reflexivity.
Qed.

(** Two amplitudes against three phases. *)
Lemma fes_record_length_handling_witness :
  compute_tides_fes2022 lib_zero_argument NOW_EXAMPLE
      (mkFesState (Some (mkDoc None None (Some ["m2"]%string) (Some [1; 2]%Q) (Some [0; 0; 0]%Q))) None)
    = (mkFesState (Some (mkDoc None None (Some ["m2"]%string) (Some [1; 2]%Q) (Some [0; 0; 0]%Q))) None,
       Ok None).
Proof.
  destruct (fes_record_length_handling lib_zero_argument NOW_EXAMPLE
              (mkFesState (Some (mkDoc None None (Some ["m2"]%string) (Some [1; 2]%Q)
                                       (Some [0; 0; 0]%Q))) None)
              (mkDoc None None (Some ["m2"]%string) (Some [1; 2]%Q) (Some [0; 0; 0]%Q))
              ["m2"]%string [1; 2]%Q [0; 0; 0]%Q
              eq_refl eq_refl eq_refl eq_refl eq_refl) as [H _].
  apply H; simpl; lia.
Defined.

(** C9.  [compute_tides] takes the FES2022 path exactly when the model
    name is the string "FES2022" and the GOT4.10 path for every other name;
    for every name it returns without raising. *)
Theorem compute_tides_dispatch (lib : PyTMD) (TIDE_MODEL_NAME : string) (now_us : Z)
    (s : FesState) :
  ((TIDE_MODEL_NAME = "FES2022"%string /\
    compute_tides lib TIDE_MODEL_NAME now_us s = compute_tides_fes2022 lib now_us s) \/
   (TIDE_MODEL_NAME <> "FES2022"%string /\
    compute_tides lib TIDE_MODEL_NAME now_us s = compute_tides_got410 lib now_us s)) /\
  exists s' o, compute_tides lib TIDE_MODEL_NAME now_us s = (s', Ok o).
Proof.
  split; [|apply compute_tides_never_raises].
  unfold compute_tides.
  destruct (String.eqb_spec TIDE_MODEL_NAME "FES2022"); [left|right]; auto.
Qed.

Lemma extract_fold_spec env cs r0 :
  let r := fold_left (extract_step env) cs r0 in
  r_constituents r = r_constituents r0 ++ filter (kept env) cs /\
  r_amplitude r = r_amplitude r0 ++ map (amp_of env) (filter (kept env) cs) /\
  r_phase r = r_phase r0 ++ map (ph_of env) (filter (kept env) cs).
Proof.
  revert r0. induction cs as [|c cs IH]; intros r0; simpl.
  - rewrite !app_nil_r. auto.
  - destruct (IH (extract_step env r0 c)) as (H1 & H2 & H3).
    rewrite H1, H2, H3. unfold extract_step, kept, amp_of, ph_of.
    destruct (model_file_exists env c) eqn:F; simpl; rewrite ?F; simpl; [|auto].
    destruct (fes_extract_constants env c) eqn:X; simpl; rewrite ?X; simpl; [auto|].
    rewrite <- !app_assoc. auto.
Qed.

Lemma extract_loop_spec env :
  r_constituents (extract_loop env) = filter (kept env) CONSTITUENTS /\
  r_amplitude (extract_loop env) = map (amp_of env) (filter (kept env) CONSTITUENTS) /\
  r_phase (extract_loop env) = map (ph_of env) (filter (kept env) CONSTITUENTS).
Proof.
  destruct (extract_fold_spec env CONSTITUENTS results0) as (A & B & C).
  change (r_constituents results0) with (@nil string) in A.
  change (r_amplitude results0) with (@nil Q) in B.
  change (r_phase results0) with (@nil Q) in C.
  unfold extract_loop. rewrite A, B, C. split; [reflexivity|split; reflexivity].
Qed.

Lemma filter_length_lt {A} (f : A -> bool) l x :
  In x l -> f x = false -> (List.length (filter f l) < List.length l)%nat.
Proof.
  induction l as [|y l IH]; simpl; [tauto|].
  intros [->|Hin] Hf.
  - rewrite Hf. pose proof (filter_length_le f l). lia.
  - destruct (f y); simpl; specialize (IH Hin Hf); lia.
Qed.

Lemma kept_true env c :
  kept env c = true ->
  model_file_exists env c = true /\ exists a p, fes_extract_constants env c = IOk a p.
Proof.
  unfold kept. destruct (model_file_exists env c); [|discriminate].
  destruct (fes_extract_constants env c); [discriminate|eauto].
Qed.

Lemma write_chunks_nofault fs p w chunks :
  snd (write_chunks fs p w chunks None) = Ok tt.
Proof.
  revert fs w. induction chunks as [|ch chs IH]; intros fs w; [reflexivity|].
  simpl. specialize (IH (fs_update fs p (Some (w ++ ch)%string)) (w ++ ch)%string).
  destruct (write_chunks _ _ _ chs None) as [tr r]. exact IH.
Qed.

Lemma save_truncating_nofault fs p chunks :
  snd (save_truncating fs p chunks NoFault) = Ok tt.
Proof.
  unfold save_truncating. simpl.
  pose proof (write_chunks_nofault (fs_update fs p (Some EmptyString)) p EmptyString chunks) as H.
  destruct (write_chunks _ _ _ chunks None) as [tr r]. exact H.
Qed.

(** C6.  The record built by the extraction loop has constituent,
    amplitude and phase lists of equal length, and the i-th amplitude and
    phase are the (unmasked) values interpolated for the i-th constituent,
    whatever constituents were skipped. *)
Theorem extract_record_aligned (env : ExtractEnv) :
  let r := extract_loop env in
  List.length (r_constituents r) = List.length (r_amplitude r) /\
  List.length (r_constituents r) = List.length (r_phase r) /\
  forall i c, nth_error (r_constituents r) i = Some c ->
    model_file_exists env c = true /\
    exists a p, fes_extract_constants env c = IOk a p /\
      nth_error (r_amplitude r) i = Some (unmask a) /\
      nth_error (r_phase r) i = Some (unmask p).
Proof.
  intros r. destruct (extract_loop_spec env) as (H1 & H2 & H3).
  unfold r. rewrite H1, H2, H3. rewrite !length_map.
  split; [reflexivity|]. split; [reflexivity|].
  intros i c E.
  assert (K : kept env c = true).
  { apply nth_error_In in E. apply filter_In in E. tauto. }
  destruct (kept_true env c K) as (F & a & p & X).
  split; [exact F|]. exists a, p. split; [exact X|].
  rewrite !nth_error_map, E. simpl. unfold amp_of, ph_of. rewrite X. auto.
Qed.

(** C5 (as stated).  With every model file present and m2 masked, m2 is
    kept in the record (at its catalog index 7) with amplitude 0.0, and the
    record is as long as the catalog. *)
Lemma extract_keeps_masked_constituent :
  nth_error (r_constituents (extract_loop env_m2_masked)) 7 = Some "m2"%string /\
  nth_error (r_amplitude (extract_loop env_m2_masked)) 7 = Some 0%Q /\
  List.length (r_constituents (extract_loop env_m2_masked)) = List.length CONSTITUENTS.
Proof. vm_compute. auto. Qed.

(** C5 (amended).  A catalog constituent is in the record exactly when its
    model file exists and its interpolation call does not raise; so a
    missing model file gives a record shorter than the catalog.  A kept
    constituent carries its interpolated amplitude and phase, a masked value
    replaced by 0.0.  Per-constituent misses never make the extraction fail:
    with pyTMD.io.FES importable and the write succeeding, it completes. *)
Theorem extract_partial_misses (env : ExtractEnv) :
  let r := extract_loop env in
  (forall c, In c CONSTITUENTS ->
     (In c (r_constituents r) <->
      model_file_exists env c = true /\ fes_extract_constants env c <> IRaise)) /\
  ((exists c, In c CONSTITUENTS /\ model_file_exists env c = false) ->
   (List.length (r_constituents r) < List.length CONSTITUENTS)%nat) /\
  (forall c a p, In c CONSTITUENTS -> model_file_exists env c = true ->
     fes_extract_constants env c = IOk a p ->
     exists i, nth_error (r_constituents r) i = Some c /\
               nth_error (r_amplitude r) i = Some (unmask a) /\
               nth_error (r_phase r) i = Some (unmask p)) /\
  (forall dump fs, fes_io_installed env = true ->
     snd (extract_constants env dump fs NoFault) = Ok tt).
Proof.
  intros r. destruct (extract_loop_spec env) as (H1 & H2 & H3).
  unfold r; rewrite H1, H2, H3.
  split; [|split; [|split]].
  - intros c Hc. rewrite filter_In. unfold kept.
    destruct (model_file_exists env c); destruct (fes_extract_constants env c);
      simpl; split; intuition congruence.
  - intros (c & Hc & Hf). apply (filter_length_lt _ _ c Hc).
    unfold kept. rewrite Hf. reflexivity.
  - intros c a p Hc Hf X.
    assert (Hin : In c (filter (kept env) CONSTITUENTS)).
    { apply filter_In. split; [exact Hc|]. unfold kept. rewrite Hf, X. reflexivity. }
    apply In_nth_error in Hin as (i & E). exists i.
    rewrite !nth_error_map, E. simpl. unfold amp_of, ph_of. rewrite X. auto.
  - intros dump fs Hi. unfold extract_constants. rewrite Hi.
    apply save_truncating_nofault.
Qed.


(** C8.  The extraction job rewrites the constants file in place: [open]
    with mode 'w' truncates it, then the JSON text is written chunk by
    chunk.  With a previous record on disk, a write error after the first
    chunk leaves the file holding "{" (neither the old nor the new record);
    even a successful run passes through an empty file before the new
    record is complete. *)
Theorem extract_save_overwrites_in_place :
  let fs0 := fs_with_old_record in
  (let (tr, r) := extract_constants env_m2_masked dump_braces fs0 (FailWriteAfter 1 OSError) in
   r = Raise OSError /\
   final_state fs0 tr EXTRACT_CACHE_FILE = Some "{"%string) /\
  (let (tr, r) := extract_constants env_m2_masked dump_braces fs0 NoFault in
   r = Ok tt /\
   nth 0 tr fs0 EXTRACT_CACHE_FILE = Some EmptyString /\
   final_state fs0 tr EXTRACT_CACHE_FILE = Some "{}"%string).
Proof. vm_compute. auto. Qed.

Lemma string_app_assoc (a b c : string) : (a ++ (b ++ c) = (a ++ b) ++ c)%string.
Proof. induction a as [|x a IH]; simpl; [reflexivity|]. rewrite IH. reflexivity. Qed.

Lemma string_app_nil (a : string) : (a ++ EmptyString = a)%string.
Proof. induction a as [|x a IH]; simpl; [reflexivity|]. rewrite IH. reflexivity. Qed.

Lemma last_in {A} (l : list A) d : In (last l d) (d :: l).
Proof.
  revert d. induction l as [|x l IH]; intros d; simpl; [auto|].
  destruct l as [|y l]; [auto|].
  destruct (IH d) as [E|H]; [left; exact E|right; right; exact H].
Qed.

Lemma last_cons {A} (x : A) l d : last (x :: l) d = last l x.
Proof.
  revert x d. induction l as [|y l IH]; intros x d; [reflexivity|].
  change (last (y :: l) d = last (y :: l) x). rewrite (IH y d), (IH y x). reflexivity.
Qed.

Lemma write_chunks_spec fs p w chunks b :
  fs p = Some w ->
  let (tr, r) := write_chunks fs p w chunks b in
  (forall st, In st tr -> forall q, q <> p -> st q = fs q) /\
  (r = Ok tt -> last tr fs p = Some (w ++ json_text chunks)%string).
Proof.
  revert fs w b. induction chunks as [|ch chs IH]; intros fs w b Hw; simpl.
  - split; [contradiction|]. intros _. rewrite Hw, string_app_nil. reflexivity.
  - destruct b as [[[|k] e]|].
    + split; [contradiction|discriminate].
    + set (fs' := fs_update fs p (Some (w ++ ch)%string)).
      assert (Hw' : fs' p = Some (w ++ ch)%string)
        by (unfold fs', fs_update; rewrite String.eqb_refl; reflexivity).
      specialize (IH fs' (w ++ ch)%string (Some (k, e)) Hw').
      destruct (write_chunks fs' p _ chs _) as [tr r]. destruct IH as [I1 I2].
      split.
      * intros st [<-|Hin] q Hq.
        -- unfold fs', fs_update. destruct (String.eqb_spec q p); [contradiction|reflexivity].
        -- rewrite (I1 st Hin q Hq). unfold fs', fs_update.
           destruct (String.eqb_spec q p); [contradiction|reflexivity].
      * intros Hr. rewrite last_cons, (I2 Hr), string_app_assoc. reflexivity.
    + set (fs' := fs_update fs p (Some (w ++ ch)%string)).
      assert (Hw' : fs' p = Some (w ++ ch)%string)
        by (unfold fs', fs_update; rewrite String.eqb_refl; reflexivity).
      specialize (IH fs' (w ++ ch)%string None Hw').
      destruct (write_chunks fs' p _ chs _) as [tr r]. destruct IH as [I1 I2].
      split.
      * intros st [<-|Hin] q Hq.
        -- unfold fs', fs_update. destruct (String.eqb_spec q p); [contradiction|reflexivity].
        -- rewrite (I1 st Hin q Hq). unfold fs', fs_update.
           destruct (String.eqb_spec q p); [contradiction|reflexivity].
      * intros Hr. rewrite last_cons, (I2 Hr), string_app_assoc. reflexivity.
Qed.

Lemma fault_eq_open f : f = FailOpen \/ f <> FailOpen.
Proof. destruct f; [right|left|right|right]; congruence. Qed.

Lemma final_state_snoc fs0 x tr y : final_state fs0 (x :: tr ++ [y]) = y.
Proof. unfold final_state. rewrite app_comm_cons. apply last_last. Qed.

Ltac fs_upd :=
  unfold fs_update;
  repeat match goal with |- context [String.eqb ?a ?b] => destruct (String.eqb_spec a b) end;
  try congruence; try reflexivity.

Lemma save_atomic_body_written fs cache tmp chunks f : f <> FailOpen ->
  save_atomic_body fs cache tmp chunks f =
  (let fs1 := fs_update fs tmp (Some EmptyString) in
   let (tr, r) := write_chunks fs1 tmp EmptyString chunks (write_budget f) in
   let fs2 := final_state fs1 tr in
   match r with
   | Raise e => (fs1 :: tr ++ [fs_update fs2 tmp None], Raise e)
   | Ok _ =>
       if match f with FailReplace => true | _ => false end
       then (fs1 :: tr ++ [fs_update fs2 tmp None], Raise OSError)
       else (fs1 :: tr ++ [fs_update (fs_update fs2 cache (fs2 tmp)) tmp None], Ok tt)
   end).
Proof. destruct f; intros H; [reflexivity|contradiction|reflexivity|reflexivity]. Qed.

(** C10.  [_save_to_disk] writes the JSON text to a fresh temporary file
    and moves it over the cache file with [os.replace].  At every step the
    cache file holds either its previous content or the complete new
    document; on success it holds the new document; on any failure it keeps
    its previous content; in both cases the temporary file is gone.  The
    trace is the same whether or not the outer [except OSError] swallows
    the error. *)
Theorem cache_save_atomic (fs : FS) (cache tmp : path) (chunks : list string) (f : fault) :
  tmp <> cache -> fs tmp = None ->
  let (tr, r) := save_atomic_body fs cache tmp chunks f in
  fst (save_to_disk fs cache tmp chunks f) = tr /\
  (forall st, In st tr -> st cache = fs cache \/ st cache = Some (json_text chunks)) /\
  (r = Ok tt -> final_state fs tr cache = Some (json_text chunks) /\
                final_state fs tr tmp = None) /\
  (forall e, r = Raise e -> final_state fs tr cache = fs cache /\
                            final_state fs tr tmp = None).
Proof.
  intros Hne Htmp.
  unfold save_to_disk.
  destruct (save_atomic_body fs cache tmp chunks f) as [tr r] eqn:B.
  split; [destruct r as [|[]]; reflexivity|].
  destruct (fault_eq_open f) as [->|Hf].
  - simpl in B. inversion B; subst. simpl.
    split; [contradiction|]. split; [discriminate|]. intros _ _. auto.
  - rewrite (save_atomic_body_written _ _ _ _ _ Hf) in B.
    cbv zeta in B. set (fs1 := fs_update fs tmp (Some EmptyString)) in B.
    assert (H1 : fs1 tmp = Some EmptyString) by (unfold fs1; fs_upd).
    assert (H1c : fs1 cache = fs cache) by (unfold fs1; fs_upd).
    pose proof (write_chunks_spec fs1 tmp EmptyString chunks (write_budget f) H1) as W.
    destruct (write_chunks fs1 tmp EmptyString chunks (write_budget f)) as [tr0 r0].
    destruct W as [W1 W2].
    fold (final_state fs1 tr0) in W2.
    set (fs2 := final_state fs1 tr0) in B, W2.
    assert (H2c : fs2 cache = fs cache).
    { unfold fs2, final_state. destruct (last_in tr0 fs1) as [E|Hin].
      - rewrite <- E. exact H1c.
      - rewrite (W1 _ Hin cache (not_eq_sym Hne)). exact H1c. }
    assert (Hstates : forall st, In st (fs1 :: tr0) -> st cache = fs cache).
    { intros st [<-|Hin]; [exact H1c|]. rewrite (W1 _ Hin cache (not_eq_sym Hne)). exact H1c. }
    assert (Hfail : forall e, (fs1 :: tr0 ++ [fs_update fs2 tmp None], Raise e) = (tr, r) ->
      (forall st, In st tr -> st cache = fs cache \/ st cache = Some (json_text chunks)) /\
      (r = Ok tt -> final_state fs tr cache = Some (json_text chunks) /\
                    final_state fs tr tmp = None) /\
      (forall e, r = Raise e -> final_state fs tr cache = fs cache /\
                                final_state fs tr tmp = None)).
    { intros e B'. inversion B'; subst tr r. split; [|split].
      - intros st Hin. left. rewrite app_comm_cons in Hin.
        apply in_app_or in Hin as [Hin|[<-|[]]].
        + exact (Hstates st Hin).
        + fs_upd.
      - discriminate.
      - intros _ _. rewrite final_state_snoc. split; fs_upd. }
    destruct r0 as [u|e]; [|exact (Hfail e B)].
    destruct u.
    destruct (match f with FailReplace => true | _ => false end); [exact (Hfail OSError B)|].
    inversion B; subst tr r. split; [|split].
    + intros st Hin. rewrite app_comm_cons in Hin.
      apply in_app_or in Hin as [Hin|[<-|[]]]; [left; exact (Hstates st Hin)|].
      right. fs_upd. rewrite W2 by reflexivity. reflexivity.
    + intros _. rewrite final_state_snoc. split; fs_upd.
      rewrite W2 by reflexivity. reflexivity.
    + discriminate.
Qed.

(** A write error after the first chunk, with a previous record in the
    cache file. *)
Lemma cache_save_atomic_witness :
  let (tr, r) := save_atomic_body fs_with_old_record EXTRACT_CACHE_FILE "cache.tmp"%string
                   ["{"; "}"]%string (FailWriteAfter 1 OSError) in
  fst (save_to_disk fs_with_old_record EXTRACT_CACHE_FILE "cache.tmp"%string
         ["{"; "}"]%string (FailWriteAfter 1 OSError)) = tr /\
  (forall st, In st tr -> st EXTRACT_CACHE_FILE = fs_with_old_record EXTRACT_CACHE_FILE \/
                          st EXTRACT_CACHE_FILE = Some (json_text ["{"; "}"]%string)) /\
  (r = Ok tt -> final_state fs_with_old_record tr EXTRACT_CACHE_FILE
                = Some (json_text ["{"; "}"]%string) /\
                final_state fs_with_old_record tr "cache.tmp"%string = None) /\
  (forall e, r = Raise e -> final_state fs_with_old_record tr EXTRACT_CACHE_FILE
                            = fs_with_old_record EXTRACT_CACHE_FILE /\
                            final_state fs_with_old_record tr "cache.tmp"%string = None).
Proof.
  apply (cache_save_atomic fs_with_old_record EXTRACT_CACHE_FILE "cache.tmp"%string
           ["{"; "}"]%string (FailWriteAfter 1 OSError)); [discriminate|reflexivity].
Defined.

(* ================================================================== *)
(** * Further properties of the service code *)

(** ** app/fetcher.py *)

Lemma in_firstn_l {A} n (l : list A) x : In x (firstn n l) -> In x l.
Proof. intros H. rewrite <- (firstn_skipn n l). apply in_or_app. left. exact H. Qed.

Lemma in_skipn_l {A} n (l : list A) x : In x (skipn n l) -> In x l.
Proof. intros H. rewrite <- (firstn_skipn n l). apply in_or_app. right. exact H. Qed.

Lemma firstn_add_split {A} a b (x : list A) :
  firstn (a + b) x = firstn a x ++ firstn b (skipn a x).
Proof.
  revert x. induction a as [|a IH]; intros [|y x]; simpl; rewrite ?firstn_nil; try reflexivity.
  f_equal. apply IH.
Qed.

Lemma day_slices_concat l n k :
  List.concat (map (day_slice l) (seq k n)) = firstn (n * 24) (skipn (k * 24) l).
Proof.
  revert k. induction n as [|n IH]; intros k; [reflexivity|].
  cbn [seq map List.concat]. rewrite IH. unfold day_slice.
  replace (S k * 24)%nat with (24 + k * 24)%nat by lia. rewrite <- skipn_skipn.
  replace (S n * 24)%nat with (24 + n * 24)%nat by lia. rewrite firstn_add_split. reflexivity.
Qed.

Lemma nums_of_all (l : list JVal) :
  (forall v, In v l -> num_of v <> None) ->
  exists qs, nums_of l = Some qs /\ List.length qs = List.length l.
Proof.
  induction l as [|v r IH]; intros H; [exists []; auto|].
  simpl. destruct (num_of v) as [q|] eqn:E; [|exfalso; apply (H v); [left; reflexivity|exact E]].
  destruct IH as [qs [-> L]]; [intros w Hw; apply H; right; exact Hw|].
  exists (q :: qs). simpl. auto.
Qed.

Lemma py_max_spec q qs :
  In (py_max q qs) (q :: qs) /\ (forall q', In q' (q :: qs) -> q' <= py_max q qs)%Q.
Proof.
  unfold py_max. revert q. induction qs as [|v vs IH]; intros q; simpl.
  - split; [auto|]. intros q' [<-|[]]. apply Qle_refl.
  - unfold Qlt_bool. destruct (Qle_bool v q) eqn:E; simpl.
    + apply Qle_bool_iff in E. destruct (IH q) as [I B]. split.
      * destruct I as [I|I]; auto.
      * intros q' [<-|[<-|I']]; [apply B; left; reflexivity|eapply Qle_trans; [exact E|apply B; left; reflexivity]|apply B; right; exact I'].
    + assert (Hlt : (q < v)%Q) by (apply Qnot_le_lt; intros C; apply Qle_bool_iff in C; congruence).
      destruct (IH v) as [I B]. split.
      * destruct I as [I|I]; auto.
      * intros q' [<-|[<-|I']]; [apply Qlt_le_weak; eapply Qlt_le_trans; [exact Hlt|apply B; left; reflexivity]|apply B; left; reflexivity|apply B; right; exact I'].
Qed.

(** The contribution of one day to the result, for arrays of numbers and
    nulls: nothing when the day has no data, else the rounded maximum. *)
Lemma day_cases l d :
  (forall v, In v l -> v = JNull \/ num_of v <> None) ->
  (filter not_null (day_slice l d) = [] /\ existsb not_null (day_slice l d) = false) \/
  (exists q qs, filter not_null (day_slice l d) <> [] /\
     nums_of (filter not_null (day_slice l d)) = Some (q :: qs) /\
     chunk_max (filter not_null (day_slice l d)) = Returns (py_round (py_max q qs)) /\
     existsb not_null (day_slice l d) = true).
Proof.
  intros Hn. destruct (filter not_null (day_slice l d)) as [|v vs] eqn:C.
  - left. split; [reflexivity|]. destruct (existsb not_null (day_slice l d)) eqn:E; [|reflexivity].
    apply existsb_exists in E as [x [Hx Nx]].
    assert (In x (filter not_null (day_slice l d))) as Hf by (apply filter_In; auto).
    rewrite C in Hf. contradiction.
  - right. destruct (nums_of_all (v :: vs)) as [[|q qs] [E L]]; [|discriminate L|].
    + intros w Hw. rewrite <- C in Hw. apply filter_In in Hw as [Hw Nw].
      unfold day_slice in Hw. apply in_firstn_l, in_skipn_l in Hw.
      destruct (Hn w Hw) as [->|N]; [discriminate Nw|exact N].
    + exists q, qs. split; [discriminate|]. split; [exact E|]. split.
      * unfold chunk_max. rewrite E. reflexivity.
      * apply existsb_exists. exists v. assert (In v (filter not_null (day_slice l d))) as Hf
          by (rewrite C; left; reflexivity).
        apply filter_In in Hf. exact Hf.
Qed.

Lemma daily_loop_numeric l days acc :
  (forall v, In v l -> v = JNull \/ num_of v <> None) ->
  daily_loop l days acc = Returns (acc ++ flat_map (fun d =>
     match nums_of (filter not_null (day_slice l d)) with
     | Some (q :: qs) => [py_round (py_max q qs)]
     | _ => []
     end) days).
Proof.
  intros Hn. revert acc. induction days as [|d ds IH]; intros acc; simpl.
  - rewrite app_nil_r. reflexivity.
  - destruct (day_cases l d Hn) as [[C _]|(q & qs & C & E & M & _)].
    + rewrite C. simpl. apply IH.
    + rewrite E. destruct (filter not_null (day_slice l d)) as [|v vs]; [contradiction|].
      rewrite M, IH, <- app_assoc. reflexivity.
Qed.

Lemma daily_loop_ext l1 l2 days acc :
  (forall d, In d days -> day_slice l1 d = day_slice l2 d) ->
  daily_loop l1 days acc = daily_loop l2 days acc.
Proof.
  revert acc. induction days as [|d ds IH]; intros acc H; [reflexivity|].
  simpl. rewrite (H d (or_introl eq_refl)).
  destruct (filter not_null (day_slice l2 d)) as [|v vs].
  - apply IH. intros; apply H; right; assumption.
  - destruct (chunk_max (v :: vs)); [|reflexivity]. apply IH. intros; apply H; right; assumption.
Qed.

Lemma fetch_dust_response l :
  fetch_daily_dust (dust_response l) =
  match daily_loop l (seq 0 7) [] with
  | Returns [] => None
  | Returns r => Some r
  | Raises _ => None
  end.
Proof. reflexivity. Qed.

Lemma fetch_dust_numeric l :
  (forall v, In v l -> v = JNull \/ num_of v <> None) ->
  fetch_daily_dust (dust_response l) =
  match flat_map (fun d =>
     match nums_of (filter not_null (day_slice l d)) with
     | Some (q :: qs) => [py_round (py_max q qs)]
     | _ => []
     end) (seq 0 7) with
  | [] => None
  | r => Some r
  end.
Proof.
  intros Hn. rewrite fetch_dust_response, (daily_loop_numeric l _ [] Hn), app_nil_l.
  match goal with |- context [flat_map ?f ?l] => destruct (flat_map f l) end; reflexivity.
Qed.

(** [_to_int_list] keeps the length, maps [None] to 0 and every number to
    the nearest integer, ties to the even one. *)
Theorem to_int_list_spec (values : list (option Q)) :
  List.length (to_int_list values) = List.length values /\
  forall i, (i < List.length values)%nat ->
    let r := nth i (to_int_list values) 0 in
    match nth i values None with
    | None => r = 0
    | Some x =>
        (inject_Z r - (1 # 2) <= x <= inject_Z r + (1 # 2))%Q /\
        ((x - inject_Z r == 1 # 2 \/ inject_Z r - x == 1 # 2)%Q -> Z.even r = true)
    end.
Proof.
  unfold to_int_list. split; [apply length_map|].
  intros i Hi. cbv zeta. rewrite (nth_map_in _ _ _ _ None Hi).
  destruct (nth i values None) as [x|]; [apply py_round_nearest|reflexivity].
Qed.

(** [fetch_daily_dust] on an array of numbers and nulls returns [None]
    exactly when the first 168 hours hold no value. *)
Theorem fetch_daily_dust_none_iff (hourly : list JVal) :
  (forall v, In v hourly -> v = JNull \/ num_of v <> None) ->
  fetch_daily_dust (dust_response hourly) = None <->
  (forall v, In v (firstn 168 hourly) -> v = JNull).
Proof.
  intros Hn. rewrite (fetch_dust_numeric _ Hn).
  replace (firstn 168 hourly) with (List.concat (map (day_slice hourly) (seq 0 7)))
    by (rewrite day_slices_concat; reflexivity).
  set (F := fun d => match nums_of (filter not_null (day_slice hourly d)) with
                     | Some (q :: qs) => [py_round (py_max q qs)] | _ => [] end).
  assert (Hday : forall d, F d = [] <-> forall v, In v (day_slice hourly d) -> v = JNull).
  { intros d. unfold F. destruct (day_cases hourly d Hn) as [[C E]|(q & qs & C & E & _ & X)].
    - rewrite C. simpl. split; [|reflexivity]. intros _ v Hv.
      destruct v; try reflexivity; exfalso;
        (assert (existsb not_null (day_slice hourly d) = true) by
           (apply existsb_exists; eexists; split; [exact Hv|reflexivity])); congruence.
    - rewrite E. split; [discriminate|]. intros H.
      apply existsb_exists in X as [x [Hx Nx]]. rewrite (H x Hx) in Nx. discriminate. }
  assert (Hall : forall days, flat_map F days = [] <-> forall d, In d days -> F d = []).
  { induction days as [|d ds IH]; simpl; [split; [contradiction|reflexivity]|].
    split.
    - intros E. apply app_eq_nil in E as [E1 E2]. intros d' [<-|Hd]; [exact E1|apply IH; assumption].
    - intros H. rewrite (H d (or_introl eq_refl)). apply IH. intros; apply H; right; assumption. }
  split.
  - intros E v Hv. apply in_concat in Hv as [s [Hs Hv]]. apply in_map_iff in Hs as [d [<- Hd]].
    destruct (flat_map F (seq 0 7)) as [|x r] eqn:FM; [|discriminate].
    apply (proj1 (Hday d)); [apply (proj1 (Hall (seq 0 7))); assumption|exact Hv].
  - intros H. assert (flat_map F (seq 0 7) = []) as ->; [|reflexivity].
    apply Hall. intros d Hd. apply Hday. intros v Hv. apply H.
    apply in_concat. exists (day_slice hourly d). split; [apply in_map; exact Hd|exact Hv].
Qed.

Lemma daily_loop_firstn hourly acc :
  daily_loop hourly (seq 0 7) acc = daily_loop (firstn 168 hourly) (seq 0 7) acc.
Proof.
  apply daily_loop_ext. intros d Hd. apply in_seq in Hd. unfold day_slice.
  rewrite skipn_firstn_comm, firstn_firstn, Nat.min_l by lia. reflexivity.
Qed.

Lemma nums_of_none l v : In v l -> num_of v = None -> nums_of l = None.
Proof.
  induction l as [|w r IH]; intros Hin N; [contradiction|]. destruct Hin as [<-|H]; simpl.
  - rewrite N. reflexivity.
  - destruct (num_of w); [|reflexivity]. rewrite (IH H N). reflexivity.
Qed.

Lemma daily_loop_raises l days acc d v :
  In d days -> In v (day_slice l d) -> v <> JNull -> num_of v = None ->
  exists e, daily_loop l days acc = Raises e.
Proof.
  intros Hd Hv Nn Nv. revert acc. induction days as [|d0 ds IH]; intros acc; [contradiction|].
  assert (Hc : forall d', d' = d -> exists e, chunk_max (filter not_null (day_slice l d')) = Raises e).
  { intros d' ->. unfold chunk_max.
    rewrite (nums_of_none _ v); [eauto|apply filter_In; split; [exact Hv|destruct v; simpl; congruence]|exact Nv]. }
  simpl. destruct Hd as [<-|Hd].
  - destruct (Hc d0 eq_refl) as [e E].
    destruct (filter not_null (day_slice l d0)) as [|w ws] eqn:C.
    + exfalso. assert (In v (filter not_null (day_slice l d0))) as I
        by (apply filter_In; split; [exact Hv|destruct v; simpl; congruence]).
      rewrite C in I. contradiction.
    + rewrite E. eauto.
  - destruct (filter not_null (day_slice l d0)) as [|w ws]; [apply IH; exact Hd|].
    destruct (chunk_max (w :: ws)); [apply IH; exact Hd|eauto].
Qed.

(** Only the first 168 hourly values (seven days of 24) are read. *)
Theorem fetch_daily_dust_first_week (hourly : list JVal) :
  fetch_daily_dust (dust_response hourly) = fetch_daily_dust (dust_response (firstn 168 hourly)).
Proof. rewrite !fetch_dust_response, daily_loop_firstn. reflexivity. Qed.

Lemma daily_entries_map hourly days :
  (forall v, In v hourly -> v = JNull \/ num_of v <> None) ->
  flat_map (fun d => match nums_of (filter not_null (day_slice hourly d)) with
                     | Some (q :: qs) => [py_round (py_max q qs)] | _ => [] end) days
  = map (fun d => match nums_of (filter not_null (day_slice hourly d)) with
                  | Some (q :: qs) => py_round (py_max q qs) | _ => 0 end)
        (filter (fun d => existsb not_null (day_slice hourly d)) days).
Proof.
  intros Hn. induction days as [|d ds IH]; [reflexivity|].
  cbn [flat_map filter]. rewrite IH.
  destruct (day_cases hourly d Hn) as [[C X]|(q & qs & C & E & _ & X)].
  - rewrite C, X. reflexivity.
  - rewrite X. cbn [map app]. rewrite E. reflexivity.
Qed.

(** On an array of numbers and nulls, the result lists, in order, one
    value per day of the first seven that has data: its i-th entry is
    the rounded maximum of the i-th such day, so a day without data
    shifts the later ones down. *)
Theorem fetch_daily_dust_entries (hourly : list JVal) (r : list Z) :
  (forall v, In v hourly -> v = JNull \/ num_of v <> None) ->
  fetch_daily_dust (dust_response hourly) = Some r ->
  let days := filter (fun d => existsb not_null (day_slice hourly d)) (seq 0 7) in
  List.length r = List.length days /\
  forall i, (i < List.length days)%nat ->
    exists qs q, nums_of (filter not_null (day_slice hourly (nth i days 0%nat))) = Some qs /\
      In q qs /\ (forall q', In q' qs -> q' <= q)%Q /\ nth i r 0 = py_round q.
Proof.
  intros Hn E days. rewrite (fetch_dust_numeric _ Hn), (daily_entries_map _ _ Hn) in E.
  fold days in E.
  match type of E with
  | match map ?G _ with _ => _ end = _ =>
      assert (R : r = map G days) by (destruct (map G days); congruence)
  end.
  subst r. split; [apply length_map|].
  intros i Hi. rewrite (nth_map_in _ _ _ _ 0%nat Hi).
  assert (Hx : existsb not_null (day_slice hourly (nth i days 0%nat)) = true).
  { assert (Hd : In (nth i days 0%nat) days) by (apply nth_In; exact Hi).
    unfold days in Hd |- *. apply filter_In in Hd. exact (proj2 Hd). }
  destruct (day_cases hourly (nth i days 0%nat) Hn) as [[_ X]|(q & qs & _ & E' & _ & _)];
    [congruence|].
  rewrite E'. destruct (py_max_spec q qs) as [I B].
  exists (q :: qs), (py_max q qs). auto.
Qed.

(** A non-null value that is not a number among the first 168 makes
    [max] or [round] raise; the exception is swallowed and the whole
    result is [None], whatever the other days hold. *)
Theorem fetch_daily_dust_rejects_non_numeric (hourly : list JVal) (v : JVal) :
  In v (firstn 168 hourly) -> v <> JNull -> num_of v = None ->
  fetch_daily_dust (dust_response hourly) = None.
Proof.
  intros Hv Nn Nv. rewrite fetch_dust_response, daily_loop_firstn.
  replace (firstn 168 hourly) with (List.concat (map (day_slice hourly) (seq 0 7))) in Hv
    by (rewrite day_slices_concat; reflexivity).
  apply in_concat in Hv as [sl [Hs Hv]]. apply in_map_iff in Hs as [d [<- Hd]].
  assert (Hv' : In v (day_slice (firstn 168 hourly) d)).
  { apply in_seq in Hd. unfold day_slice in *.
    rewrite skipn_firstn_comm, firstn_firstn, Nat.min_l by lia. exact Hv. }
  destruct (daily_loop_raises (firstn 168 hourly) (seq 0 7) [] d v) as [e ->]; auto.
Qed.

Lemma fetch_daily_dust_none_iff_witness :
  (forall v, In v [JNull; JNum 7] -> v = JNull \/ num_of v <> None) /\
  (fetch_daily_dust (dust_response [JNull; JNum 7]) = None <->
   (forall v, In v (firstn 168 [JNull; JNum 7]) -> v = JNull)).
Proof.
  split.
  - intros v [<-|[<-|[]]]; [left; reflexivity|right; discriminate].
  - apply fetch_daily_dust_none_iff.
    intros v [<-|[<-|[]]]; [left; reflexivity|right; discriminate].
Defined.

(** Days 0 and 2 have no data, day 1 peaks at 7 and day 3 at 20.5: the
    result is [7; 20] (ties to even), day 3's maximum at index 1. *)
Lemma fetch_daily_dust_entries_witness :
  let hourly := repeat JNull 24 ++ [JNum 7] ++ repeat JNull 47 ++ [JNum (41 # 2)] in
  (forall v, In v hourly -> v = JNull \/ num_of v <> None) /\
  fetch_daily_dust (dust_response hourly) = Some [7; 20] /\
  filter (fun d => existsb not_null (day_slice hourly d)) (seq 0 7) = [1; 3]%nat /\
  (List.length [7; 20] = List.length (filter (fun d => existsb not_null (day_slice hourly d)) (seq 0 7)) /\
   forall i, (i < List.length (filter (fun d => existsb not_null (day_slice hourly d)) (seq 0 7)))%nat ->
    exists qs q, nums_of (filter not_null (day_slice hourly
                   (nth i (filter (fun d => existsb not_null (day_slice hourly d)) (seq 0 7)) 0%nat))) = Some qs /\
      In q qs /\ (forall q', In q' qs -> q' <= q)%Q /\ nth i [7; 20] 0 = py_round q).
Proof.
  intros hourly.
  assert (Hn : forall v, In v hourly -> v = JNull \/ num_of v <> None).
  { intros v Hv. unfold hourly in Hv.
    repeat (apply in_app_or in Hv; destruct Hv as [Hv|Hv]);
      try (left; apply repeat_spec in Hv; exact Hv);
      destruct Hv as [<-|[]]; right; discriminate. }
  split; [exact Hn|]. split; [vm_compute; reflexivity|]. split; [vm_compute; reflexivity|].
  apply fetch_daily_dust_entries; [exact Hn|vm_compute; reflexivity].
Defined.

Lemma fetch_daily_dust_rejects_non_numeric_witness :
  In (JStr "12") (firstn 168 [JNum 5; JStr "12"]) /\ JStr "12" <> JNull /\
  num_of (JStr "12") = None /\
  fetch_daily_dust (dust_response [JNum 5; JStr "12"]) = None.
Proof.
  split; [simpl; auto|]. split; [discriminate|]. split; [reflexivity|].
  apply (fetch_daily_dust_rejects_non_numeric _ (JStr "12")); [simpl; auto|discriminate|reflexivity].
Defined.

(** [get_client] always hands out an open client and keeps handing out
    the same one while it stays open; after [close_client] the next call
    creates a different client. *)
Theorem get_client_lifecycle (st : FetcherState) :
  (forall c, f_client st = Some c -> (client_id c < next_id st)%nat) ->
  let (st1, c) := get_client st in
  is_closed c = false /\ f_client st1 = Some c /\
  get_client st1 = (st1, c) /\
  (forall c0, f_client st = Some c0 -> is_closed c0 = false -> c = c0) /\
  client_id (snd (get_client (close_client st1))) <> client_id c.
Proof.
  intros Hid. unfold get_client, close_client.
  destruct (f_client st) as [[id [|]]|] eqn:F; simpl.
  - repeat split; try reflexivity.
    + intros c0 E; inversion E; subst; simpl; discriminate.
    + lia.
  - rewrite F. simpl. repeat split; try reflexivity.
    + intros c0 E _. inversion E. reflexivity.
    + specialize (Hid _ eq_refl). simpl in Hid. lia.
  - repeat split; try reflexivity; [intros c0 E; discriminate|lia].
Qed.

Lemma get_client_lifecycle_witness :
  (forall c, f_client (mkFetcher None 0) = Some c -> (client_id c < next_id (mkFetcher None 0))%nat) /\
  let (st1, c) := get_client (mkFetcher None 0) in
  is_closed c = false /\ f_client st1 = Some c /\
  get_client st1 = (st1, c) /\
  (forall c0, f_client (mkFetcher None 0) = Some c0 -> is_closed c0 = false -> c = c0) /\
  client_id (snd (get_client (close_client st1))) <> client_id c.
Proof.
  split; [intros c E; discriminate|].
  apply (get_client_lifecycle (mkFetcher None 0)). intros c E; discriminate.
Defined.

(** ** app/cache.py *)

Lemma dict_get_set_same k v kvs : dict_get k (dict_set k v kvs) = Some v.
Proof.
  induction kvs as [|[k' v'] r IH]; simpl; [rewrite String.eqb_refl; reflexivity|].
  destruct (String.eqb k k') eqn:E; simpl; rewrite E; [reflexivity|exact IH].
Qed.

Lemma dict_get_set_other k k' v kvs : k' <> k -> dict_get k' (dict_set k v kvs) = dict_get k' kvs.
Proof.
  intros N. induction kvs as [|[k0 v0] r IH]; simpl.
  - destruct (String.eqb_spec k' k); [contradiction|reflexivity].
  - destruct (String.eqb_spec k k0) as [->|N0]; simpl.
    + destruct (String.eqb_spec k' k0); [contradiction|reflexivity].
    + destruct (String.eqb k' k0); [reflexivity|exact IH].
Qed.

Lemma Qlt_bool_iff a b : Qlt_bool a b = true <-> (a < b)%Q.
Proof.
  unfold Qlt_bool. rewrite negb_true_iff. split.
  - intros H. apply Qnot_le_lt. intros C. apply Qle_bool_iff in C. congruence.
  - intros H. destruct (Qle_bool b a) eqn:E; [|reflexivity].
    apply Qle_bool_iff in E. exfalso. apply (Qlt_not_le _ _ H E).
Qed.

Lemma py_int_age_fin q : (0 <= q)%Q ->
  exists n, py_int_age (AgeFin q) = Returns n /\ (inject_Z n <= q < inject_Z n + 1)%Q.
Proof.
  intros H. exists (Qfloor q). split.
  - simpl. f_equal. destruct q as [p d]. unfold Qle in H. simpl in *.
    apply Z.quot_div_nonneg; lia.
  - split; [apply Qfloor_le|]. pose proof (Qlt_floor q) as L.
    rewrite inject_Z_plus in L. exact L.
Qed.

(** [update] replaces the data and the timestamp in memory whatever
    happens to the disk write; from then on the cache is stale exactly
    when more than [POLL_INTERVAL_SECONDS] (1800 s) have passed. *)
Theorem cache_update_fresh_until_poll (c : CacheManager) (fs : FS) (data : JVal) (now : Q)
    (tmp : path) (dumps : JVal -> list string) (f : fault) (now' : Q) :
  data <> JNull -> ~ (now == 0)%Q ->
  let '(c', _, _) := cache_update c fs data now tmp dumps f in
  cm_data c' = Some data /\ cm_last_updated c' = now /\
  (needs_refresh c' now' = true <-> (now' - now > 1800)%Q).
Proof.
  intros Hd Hn. unfold cache_update.
  destruct (save_to_disk _ _ _ _ _) as [tr r]. simpl.
  assert (E : match data with JNull => None | v => Some v end = Some data)
    by (destruct data; congruence).
  rewrite E. split; [reflexivity|]. split; [reflexivity|].
  unfold needs_refresh, has_data, get_age_seconds. simpl.
  destruct (Qeq_bool now 0) eqn:Z0; [apply Qeq_bool_iff in Z0; contradiction|].
  apply Qlt_bool_iff.
Qed.

Lemma cache_update_fresh_until_poll_witness :
  JNum 1 <> JNull /\ ~ (1000 == 0)%Q /\
  let '(c', _, _) := cache_update (mkCache None 0) (fun _ => None) (JObj [("wind"%string, JNum 1)])
                       1000 "cache.tmp"%string (fun _ => ["{}"%string]) (FailWriteAfter 0 TypeError) in
  cm_data c' = Some (JObj [("wind"%string, JNum 1)]) /\ cm_last_updated c' = 1000%Q /\
  (needs_refresh c' 3000 = true <-> (3000 - 1000 > 1800)%Q).
Proof.
  split; [discriminate|]. split; [discriminate|].
  apply (cache_update_fresh_until_poll (mkCache None 0) (fun _ => None) (JObj [("wind"%string, JNum 1)])
           1000 "cache.tmp"%string (fun _ => ["{}"%string]) (FailWriteAfter 0 TypeError) 3000);
    discriminate.
Defined.

(** A cache file whose record has data but no [last_updated] (or 0) loads
    with a timestamp of 0, so the age is infinite: the cache is stale and
    [get_response], [get_conditions] and [health] raise [OverflowError]
    from [int(inf)] until a refresh succeeds. *)
Theorem cache_record_without_timestamp (fs : FS) (loads : string -> outcome JVal)
    (text : string) (kvs d : list (string * JVal)) (now : Q) :
  fs CACHE_FILE = Some text -> loads text = Returns (JObj kvs) ->
  dict_get "data" kvs = Some (JObj d) ->
  dict_get "last_updated" kvs = None \/ dict_get "last_updated" kvs = Some (JNum 0) ->
  exists c, cache_init fs loads = Returns c /\ has_data c = true /\
    needs_refresh c now = true /\
    get_response c now = Raises OverflowError /\
    get_conditions c now = Raises OverflowError /\
    health c now = Raises OverflowError.
Proof.
  intros F L D LU. unfold cache_init, load_stored. rewrite F, L, D.
  destruct LU as [-> | ->]; eexists; split; try reflexivity; repeat split; reflexivity.
Qed.

Lemma cache_record_without_timestamp_witness :
  let fs := fs_update (fun _ => None) CACHE_FILE (Some "{...}"%string) in
  let loads := fun _ : string => Returns (JObj [("data"%string, JObj [("wind"%string, JNum 3)])]) in
  fs CACHE_FILE = Some "{...}"%string /\
  exists c, cache_init fs loads = Returns c /\ has_data c = true /\
    needs_refresh c 10 = true /\
    get_response c 10 = Raises OverflowError /\
    get_conditions c 10 = Raises OverflowError /\
    health c 10 = Raises OverflowError.
Proof.
  cbv zeta. split; [reflexivity|].
  apply (cache_record_without_timestamp _ _ "{...}"%string [("data"%string, JObj [("wind"%string, JNum 3)])]
           [("wind"%string, JNum 3)] 10); [reflexivity|reflexivity|reflexivity|left; reflexivity].
Defined.

(** [/api/conditions] answers 503 while there is no data; with data and a
    recorded timestamp it answers 200 with the stored dict, every key
    kept except ["age"], which holds the whole seconds elapsed. *)
Theorem get_conditions_spec (c : CacheManager) (now : Q) :
  (cm_data c = None -> exists body, get_conditions c now = Returns (503, body)) /\
  (forall kvs, cm_data c = Some (JObj kvs) -> ~ (cm_last_updated c == 0)%Q ->
     (0 <= now - cm_last_updated c)%Q ->
     exists n kvs', get_conditions c now = Returns (200, JObj kvs') /\
       dict_get "age" kvs' = Some (JNum (inject_Z n)) /\
       (inject_Z n <= now - cm_last_updated c < inject_Z n + 1)%Q /\
       forall k, k <> "age"%string -> dict_get k kvs' = dict_get k kvs).
Proof.
  unfold get_conditions, get_response. split.
  - intros ->. eexists. reflexivity.
  - intros kvs D Z0 Pos. rewrite D. unfold get_age_seconds.
    destruct (Qeq_bool (cm_last_updated c) 0) eqn:E; [apply Qeq_bool_iff in E; contradiction|].
    destruct (py_int_age_fin _ Pos) as [n [-> B]].
    exists n, (dict_set "age" (JNum (inject_Z n)) kvs). split; [reflexivity|].
    split; [apply dict_get_set_same|]. split; [exact B|].
    intros k N. apply dict_get_set_other. exact N.
Qed.

(** At start-up a missing or undecodable cache file leaves an empty
    manager, which needs a refresh and makes [/api/conditions] answer 503;
    a file whose JSON is not an object, or whose [last_updated] is not a
    number, makes [CacheManager()] raise. *)
Theorem cache_init_fallbacks (fs : FS) (loads : string -> outcome JVal) (now : Q) :
  (fs CACHE_FILE = None -> cache_init fs loads = Returns (mkCache None 0)) /\
  (forall text, fs CACHE_FILE = Some text -> loads text = Raises (PyExn JSONDecodeError) ->
     cache_init fs loads = Returns (mkCache None 0)) /\
  (needs_refresh (mkCache None 0) now = true /\
   exists body, get_conditions (mkCache None 0) now = Returns (503, body)) /\
  (forall text v, fs CACHE_FILE = Some text -> loads text = Returns v ->
     (forall kvs, v <> JObj kvs) -> cache_init fs loads = Raises AttributeError) /\
  (forall text kvs lu, fs CACHE_FILE = Some text -> loads text = Returns (JObj kvs) ->
     dict_get "last_updated" kvs = Some lu -> num_of lu = None ->
     cache_init fs loads = Raises (PyExn TypeError)).
Proof.
  unfold cache_init, load_stored. repeat split.
  - intros ->. reflexivity.
  - intros text -> ->. reflexivity.
  - eexists. reflexivity.
  - intros text v -> -> N. destruct v; try reflexivity. exfalso. eapply N. reflexivity.
  - intros text kvs lu -> -> -> N. rewrite N. reflexivity.
Qed.

Lemma save_to_disk_nofault fs cache tmp chunks :
  tmp <> cache ->
  let (tr, r) := save_to_disk fs cache tmp chunks NoFault in
  r = Ok tt /\ final_state fs tr cache = Some (json_text chunks).
Proof.
  intros Hne. unfold save_to_disk, save_atomic_body.
  change (write_budget NoFault) with (@None (nat * exn)).
  set (fs1 := fs_update fs tmp (Some EmptyString)).
  assert (H1 : fs1 tmp = Some EmptyString) by (unfold fs1; fs_upd).
  pose proof (write_chunks_spec fs1 tmp EmptyString chunks None H1) as W.
  pose proof (write_chunks_nofault fs1 tmp EmptyString chunks) as N.
  destruct (write_chunks fs1 tmp EmptyString chunks None) as [tr0 r0].
  simpl in N. subst r0. destruct W as [_ W2]. specialize (W2 eq_refl).
  cbv beta iota zeta. split; [reflexivity|]. rewrite final_state_snoc.
  fold (final_state fs1 tr0) in W2. unfold fs_update.
  destruct (String.eqb_spec cache tmp) as [E|_]; [congruence|].
  rewrite String.eqb_refl. exact W2.
Qed.

(** A successful [update] followed by a restart: the new [CacheManager]
    reads back the data and the timestamp, provided the JSON encoding of
    the stored record decodes to the record. *)
Theorem cache_update_reload (c : CacheManager) (fs : FS) (data : JVal) (now : Q) (tmp : path)
    (dumps : JVal -> list string) (loads : string -> outcome JVal) :
  tmp <> CACHE_FILE -> data <> JNull ->
  loads (json_text (dumps (JObj [("data"%string, data); ("last_updated"%string, JNum now)])))
    = Returns (JObj [("data"%string, data); ("last_updated"%string, JNum now)]) ->
  let '(c', tr, r) := cache_update c fs data now tmp dumps NoFault in
  r = Ok tt /\ cache_init (final_state fs tr) loads = Returns c'.
Proof.
  intros Hne Hd Hl. unfold cache_update.
  assert (E : match data with JNull => None | v => Some v end = Some data)
    by (destruct data; congruence).
  rewrite E. unfold stored_of. simpl (cm_data _). simpl (cm_last_updated _).
  pose proof (save_to_disk_nofault fs CACHE_FILE tmp
    (dumps (JObj [("data"%string, data); ("last_updated"%string, JNum now)])) Hne) as S.
  destruct (save_to_disk _ _ _ _ _) as [tr r]. destruct S as [-> F].
  split; [reflexivity|]. unfold cache_init. rewrite F. unfold load_stored. rewrite Hl.
  simpl. destruct data; try reflexivity. contradiction.
Qed.

Lemma cache_update_reload_witness :
  "data/tmp.tmp"%string <> CACHE_FILE /\ JObj [] <> JNull /\
  let '(c', tr, r) := cache_update (mkCache None 0) (fun _ => None) (JObj []) 5 "data/tmp.tmp"%string
                        (fun _ => ["{}"%string])  NoFault in
  r = Ok tt /\
  cache_init (final_state (fun _ => None) tr)
    (fun _ => Returns (JObj [("data"%string, JObj []); ("last_updated"%string, JNum 5)])) = Returns c'.
Proof.
  split; [discriminate|]. split; [discriminate|].
  apply (cache_update_reload (mkCache None 0) (fun _ => None) (JObj []) 5 "data/tmp.tmp"%string
           (fun _ => ["{}"%string])
           (fun _ => Returns (JObj [("data"%string, JObj []); ("last_updated"%string, JNum 5)])));
    [discriminate|discriminate|reflexivity].
Defined.

(** ** app/main.py *)

Lemma do_refresh_cases env st :
  let (st', o) := do_refresh env st in
  (app_cache st' = app_cache st /\ app_disk st' = app_disk st) \/
  exists p, cm_data (app_cache st') = Some (JObj p) /\ cm_last_updated (app_cache st') = env_now env.
Proof.
  unfold do_refresh. destruct (env_weather env) as [w|e]; [|left; auto].
  destruct (compute_tides _ _ _ _) as [fes' tr].
  destruct (w_time w) as [|t0 ts]; [left; auto|].
  destruct (env_timegm env t0) as [secs|e]; [|left; auto].
  unfold cache_update. destruct (save_to_disk _ _ _ _ _) as [trace r].
  cbv beta iota zeta. unfold build_payload.
  destruct r; right; eexists; split; reflexivity.
Qed.

(** [refresh_if_needed] leaves a fresh cache alone; otherwise the cache
    either stays as it was, on disk too (the refresh failed before
    [update]), or holds a new payload dict stamped with the current time. *)
Theorem refresh_if_needed_effect (env : RefreshEnv) (st : AppState) :
  let st' := refresh_if_needed env st in
  (needs_refresh (app_cache st) (env_now env) = false -> st' = st) /\
  ((app_cache st' = app_cache st /\ app_disk st' = app_disk st) \/
   exists p, cm_data (app_cache st') = Some (JObj p) /\ cm_last_updated (app_cache st') = env_now env).
Proof.
  cbv zeta. unfold refresh_if_needed.
  destruct (needs_refresh (app_cache st) (env_now env)); simpl.
  - split; [discriminate|]. pose proof (do_refresh_cases env st) as H.
    destruct (do_refresh env st). exact H.
  - split; [reflexivity|]. left; auto.
Qed.

(** A refresh whose weather request fails, whose forecast has no time
    steps, or whose first time step cannot be parsed changes neither the
    cached data nor the cache file. *)
Theorem refresh_failure_keeps_cache (env : RefreshEnv) (st : AppState) :
  (exists e, env_weather env = Raises e) \/
  (exists w, env_weather env = Returns w /\ w_time w = []) \/
  (exists w t0 ts e, env_weather env = Returns w /\ w_time w = t0 :: ts /\ env_timegm env t0 = Raises e) ->
  app_cache (refresh_if_needed env st) = app_cache st /\
  app_disk (refresh_if_needed env st) = app_disk st.
Proof.
  intros H. unfold refresh_if_needed.
  destruct (needs_refresh (app_cache st) (env_now env)); simpl; [|auto].
  unfold do_refresh.
  destruct H as [[e E]|[[w [E T]]|(w & t0 & ts & e & E & T & G)]]; rewrite E; [simpl; auto| |].
  - destruct (compute_tides _ _ _ _). rewrite T. simpl. auto.
  - destruct (compute_tides _ _ _ _). rewrite T, G. simpl. auto.
Qed.

Lemma refresh_failure_keeps_cache_witness :
  let env := env_example (Raises (PyExn OSError)) in
  let st := mkApp (mkCache None 0) (fun _ => None) (mkFesState None None) in
  ((exists e, env_weather env = Raises e) \/
   (exists w, env_weather env = Returns w /\ w_time w = []) \/
   (exists w t0 ts e, env_weather env = Returns w /\ w_time w = t0 :: ts /\ env_timegm env t0 = Raises e)) /\
  app_cache (refresh_if_needed env st) = app_cache st /\
  app_disk (refresh_if_needed env st) = app_disk st.
Proof.
  cbv zeta.
  assert (H : (exists e, env_weather (env_example (Raises (PyExn OSError))) = Raises e) \/
   (exists w, env_weather (env_example (Raises (PyExn OSError))) = Returns w /\ w_time w = []) \/
   (exists w t0 ts e, env_weather (env_example (Raises (PyExn OSError))) = Returns w /\
      w_time w = t0 :: ts /\ env_timegm (env_example (Raises (PyExn OSError))) t0 = Raises e))
    by (left; eexists; reflexivity).
  split; [exact H|].
  apply (refresh_failure_keeps_cache (env_example (Raises (PyExn OSError)))
           (mkApp (mkCache None 0) (fun _ => None) (mkFesState None None)) H).
Defined.

(** A refresh that gets past the weather request stores a payload stamped
    with the current time: [ts] is the first local hour as a UTC epoch
    minus two hours, the weather arrays are copied, and [dust_daily],
    [sea_temp] and [tide] are present exactly when their source returned
    a value.  The tide computation never aborts the refresh. *)
Theorem refresh_payload (env : RefreshEnv) (st : AppState) (w : Weather) (t0 : string)
    (ts : list string) (secs : Z) :
  env_weather env = Returns w -> w_time w = t0 :: ts -> env_timegm env t0 = Returns secs ->
  let (st', o) := do_refresh env st in
  exists p fes' tide,
    compute_tides (env_lib env) (env_model env) (env_now_us env) (app_fes st) = (fes', Ok tide) /\
    app_fes st' = fes' /\
    cm_data (app_cache st') = Some (JObj p) /\ cm_last_updated (app_cache st') = env_now env /\
    dict_get "ts" p = Some (JNum (inject_Z (secs - 7200))) /\
    dict_get "time" p = Some (JList (map JStr (w_time w))) /\
    dict_get "wind" p = Some (int_list (w_wind w)) /\
    dict_get "wind_dir" p = Some (int_list (w_wind_dir w)) /\
    dict_get "gust" p = Some (int_list (w_gust w)) /\
    dict_get "temp" p = Some (int_list (w_temp w)) /\
    dict_get "dust_daily" p = option_map int_list (fetch_daily_dust (env_dust_resp env)) /\
    dict_get "sea_temp" p = option_map int_list (env_sea_temp env) /\
    dict_get "tide" p = option_map int_list tide.
Proof.
  intros Hw Ht Hg.
  destruct (compute_tides_never_raises (env_lib env) (env_model env) (env_now_us env) (app_fes st))
    as (fes' & tide & CT).
  unfold do_refresh. rewrite Hw, CT. cbv beta iota zeta. rewrite Ht, Hg. cbv beta iota zeta.
  unfold cache_update. destruct (save_to_disk _ _ _ _ _) as [trace r].
  cbv beta iota zeta. unfold build_payload.
  destruct (fetch_daily_dust (env_dust_resp env)), (env_sea_temp env), tide, r.
  all: eexists; exists fes'; eexists; repeat split; rewrite ?Ht; reflexivity.
Qed.

Lemma refresh_payload_witness :
  let env := env_example (Returns weather_example) in
  let st := mkApp (mkCache None 0) (fun _ => None) (mkFesState None None) in
  env_weather env = Returns weather_example /\
  w_time weather_example = "2026-01-30T01:00"%string :: ["2026-01-30T02:00"%string] /\
  env_timegm env "2026-01-30T01:00"%string = Returns 1769734800 /\
  let (st', o) := do_refresh env st in
  exists p fes' tide,
    compute_tides (env_lib env) (env_model env) (env_now_us env) (app_fes st) = (fes', Ok tide) /\
    app_fes st' = fes' /\
    cm_data (app_cache st') = Some (JObj p) /\ cm_last_updated (app_cache st') = env_now env /\
    dict_get "ts" p = Some (JNum (inject_Z (1769734800 - 7200))) /\
    dict_get "time" p = Some (JList (map JStr (w_time weather_example))) /\
    dict_get "wind" p = Some (int_list (w_wind weather_example)) /\
    dict_get "wind_dir" p = Some (int_list (w_wind_dir weather_example)) /\
    dict_get "gust" p = Some (int_list (w_gust weather_example)) /\
    dict_get "temp" p = Some (int_list (w_temp weather_example)) /\
    dict_get "dust_daily" p = option_map int_list (fetch_daily_dust (env_dust_resp env)) /\
    dict_get "sea_temp" p = option_map int_list (env_sea_temp env) /\
    dict_get "tide" p = option_map int_list tide.
Proof.
  cbv zeta. split; [reflexivity|]. split; [reflexivity|]. split; [reflexivity|].
  apply (refresh_payload (env_example (Returns weather_example))
           (mkApp (mkCache None 0) (fun _ => None) (mkFesState None None))
           weather_example "2026-01-30T01:00"%string ["2026-01-30T02:00"%string] 1769734800);
    reflexivity.
Defined.

(** ** verify_fes2022_installation and verify_fes2022.py *)

(** [verify_fes2022_installation] raises exactly when
    [CACHE_FILE.exists()] raises (line 120 is outside the [try]); this
    [OSError] propagates with the state unchanged.  Otherwise it returns,
    and reports [ready] exactly when the constants file exists and
    [_load_constants] yields a record with latitude, longitude and at
    least eight constituents; a record still cached after the file was
    removed is reported not ready. *)
Theorem verify_ready_iff (s : FesState) :
  (cache_file s = Some StatDenied ->
   verify_fes2022_installation s = (s, Raise OSError)) /\
  (cache_file s <> Some StatDenied ->
   exists s' st, verify_fes2022_installation s = (s', Ok st) /\
   (vs_ready st = true <->
     cache_file s <> None /\
     exists d cs, snd (load_constants s) = Ok (Some d) /\ d_constituents d = Some cs /\
       d_latitude d <> None /\ d_longitude d <> None /\ (8 <= List.length cs)%nat)).
Proof.
  unfold verify_fes2022_installation. split; [intros ->; reflexivity|intros NS].
  destruct (cache_file s) as [fc|] eqn:F.
  - assert (Hfc : fc <> StatDenied) by congruence.
    assert (Hm : forall A (x y : A), match fc with StatDenied => x | _ => y end = y)
      by (destruct fc; [reflexivity..|contradiction]).
    rewrite Hm.
    destruct (load_constants s) as [s' [[d|]|e]] eqn:L; cbv beta iota zeta.
    + destruct (d_constituents d) as [cs|] eqn:C.
      * destruct (d_latitude d) as [la|] eqn:LA, (d_longitude d) as [lo|] eqn:LO;
          do 2 eexists; (split; [reflexivity|]); cbn [vs_ready snd].
        -- rewrite Nat.leb_le. split.
           ++ intros H. split; [discriminate|]. exists d, cs.
              repeat split; try assumption; [rewrite LA|rewrite LO]; discriminate.
           ++ intros [_ (d' & cs' & E & C' & _ & _ & Len)]. inversion E; subst. congruence.
        -- split; [discriminate|]. intros [_ (d' & cs' & E & _ & _ & N & _)]. inversion E; subst. contradiction.
        -- split; [discriminate|]. intros [_ (d' & cs' & E & _ & N & _ & _)]. inversion E; subst. contradiction.
        -- split; [discriminate|]. intros [_ (d' & cs' & E & _ & N & _ & _)]. inversion E; subst. contradiction.
      * do 2 eexists. split; [reflexivity|]. simpl. split; [discriminate|].
        intros [_ (d' & cs' & E & C' & _)]. inversion E; subst. congruence.
    + do 2 eexists. split; [reflexivity|]. simpl. split; [discriminate|].
      intros [_ (d' & cs' & E & _)]. discriminate.
    + do 2 eexists. split; [reflexivity|]. simpl. split; [discriminate|].
      intros [_ (d' & cs' & E & _)]. discriminate.
  - do 2 eexists. split; [reflexivity|]. simpl. split; [discriminate|]. intros [N _]. contradiction.
Qed.

(** A constants file behind a directory the process may not enter. *)
Lemma verify_ready_iff_witness :
  cache_file (mkFesState None (Some StatDenied)) = Some StatDenied /\
  verify_fes2022_installation (mkFesState None (Some StatDenied))
    = (mkFesState None (Some StatDenied), Raise OSError).
Proof.
  split; [reflexivity|].
  apply (proj1 (verify_ready_iff (mkFesState None (Some StatDenied)))). reflexivity.
Defined.

(** verify_fes2022.py exits with 0 only when the installation is reported
    ready and a FES2022 prediction then returns a non-empty series. *)
Theorem verify_main_success (lib : PyTMD) (now_us : Z) (s s' : FesState) :
  verify_main lib now_us s = (s', Ok 0) ->
  exists s1 st hs, verify_fes2022_installation s = (s1, Ok st) /\ vs_ready st = true /\
    compute_tides_fes2022 lib now_us s1 = (s', Ok (Some hs)) /\ hs <> [].
Proof.
  unfold verify_main, bind, ret, throw.
  destruct (verify_fes2022_installation s) as [s1 [st|e]] eqn:V; [|discriminate].
  destruct (vs_latitude st) as [la|], (vs_longitude st) as [lo|];
    try (destruct (Qeq_bool la 0); [|discriminate]);
    (destruct (vs_ready st) eqn:R; [|discriminate]);
    (destruct (compute_tides_fes2022 lib now_us s1) as [s2 [[[|h hs]|]|e]] eqn:C; try discriminate);
    intros E; inversion E; subst; exists s1, st, (h :: hs); repeat split; auto; discriminate.
Qed.

Lemma verify_main_success_witness :
  verify_main (lib_const (3 # 10)) NOW_EXAMPLE (mkFesState None (Some (JsonDoc doc_eight)))
    = (mkFesState (Some doc_eight) (Some (JsonDoc doc_eight)), Ok 0) /\
  exists s1 st hs,
    verify_fes2022_installation (mkFesState None (Some (JsonDoc doc_eight))) = (s1, Ok st) /\
    vs_ready st = true /\
    compute_tides_fes2022 (lib_const (3 # 10)) NOW_EXAMPLE s1
      = (mkFesState (Some doc_eight) (Some (JsonDoc doc_eight)), Ok (Some hs)) /\ hs <> [].
Proof.
  split; [vm_compute; reflexivity|].
  apply verify_main_success. vm_compute. reflexivity.
Defined.

(** ** app/tides_fes2022.py: the constants cache *)

(** Case on an innermost [match] of the goal. *)
Ltac destruct_inner :=
  match goal with
  | |- context [match ?x with _ => _ end] =>
      lazymatch x with
      | context [match _ with _ => _ end] => fail
      | _ => destruct x
      end
  end.

Lemma fes_cached_result_indep lib off now_us d file :
  snd (compute_tides_fes2022_with lib off now_us (mkFesState (Some d) file))
  = snd (compute_tides_fes2022_with lib off now_us (mkFesState (Some d) None)).
Proof.
  unfold compute_tides_fes2022_with, try_or_none, bind, lift, ret, load_constants.
  simpl. destruct (import_pytmd lib); [|reflexivity]. simpl.
  destruct (key (d_constituents d)); [|reflexivity].
  destruct (key (d_amplitude d)); [|reflexivity].
  destruct (key (d_phase d)); [|reflexivity].
  destruct (broadcast2 mkPolar _ _); [|reflexivity].
  destruct (drift lib _ _ _); [|reflexivity].
  destruct (log_range _); reflexivity.
Qed.

(** [_load_constants] caches the decoded record before reading its keys:
    the first FES2022 prediction leaves the record cached whatever its
    outcome (a record without [constituents], [latitude] or [longitude]
    gives [None]), and from then on predictions no longer depend on the
    file, whether it is regenerated or removed. *)
Theorem fes_constants_cached_once (lib : PyTMD) (now_us : Z) (s : FesState) (d : Doc) :
  cached_constants s = None -> cache_file s = Some (JsonDoc d) -> pytmd_installed lib = true ->
  fst (compute_tides_fes2022 lib now_us s) = mkFesState (Some d) (cache_file s) /\
  (d_constituents d = None \/ d_latitude d = None \/ d_longitude d = None ->
     snd (compute_tides_fes2022 lib now_us s) = Ok None) /\
  forall file, snd (compute_tides_fes2022 lib now_us (mkFesState (Some d) file))
             = snd (compute_tides_fes2022 lib now_us (mkFesState (Some d) None)).
Proof.
  intros Hc Hf Hi. split; [|split].
  - unfold compute_tides_fes2022, compute_tides_fes2022_with, try_or_none, bind, lift, ret.
    unfold import_pytmd. rewrite Hi. unfold load_constants. rewrite Hc, Hf. cbv beta iota zeta.
    unfold key. repeat (destruct_inner; cbv beta iota zeta); reflexivity.
  - intros H. unfold compute_tides_fes2022, compute_tides_fes2022_with, try_or_none, bind, lift, ret.
    unfold import_pytmd. rewrite Hi. unfold load_constants. rewrite Hc, Hf. cbv beta iota zeta.
    destruct H as [ -> | [ -> | -> ] ]; [|destruct (d_constituents d)|destruct (d_constituents d), (d_latitude d)];
      reflexivity.
  - intros file. apply fes_cached_result_indep.
Qed.

(** A record without latitude, with one constituent. *)
Lemma fes_constants_cached_once_witness :
  let d := mkDoc None (Some Config.LONGITUDE) (Some ["m2"]%string) (Some [3 # 10]) (Some [0%Q]) in
  let s := mkFesState None (Some (JsonDoc d)) in
  cached_constants s = None /\ cache_file s = Some (JsonDoc d) /\
  pytmd_installed (lib_const (3 # 10)) = true /\
  fst (compute_tides_fes2022 (lib_const (3 # 10)) NOW_EXAMPLE s) = mkFesState (Some d) (cache_file s) /\
  (d_constituents d = None \/ d_latitude d = None \/ d_longitude d = None ->
     snd (compute_tides_fes2022 (lib_const (3 # 10)) NOW_EXAMPLE s) = Ok None) /\
  forall file, snd (compute_tides_fes2022 (lib_const (3 # 10)) NOW_EXAMPLE (mkFesState (Some d) file))
             = snd (compute_tides_fes2022 (lib_const (3 # 10)) NOW_EXAMPLE (mkFesState (Some d) None)).
Proof.
  cbv zeta. split; [reflexivity|]. split; [reflexivity|]. split; [reflexivity|].
  apply fes_constants_cached_once; reflexivity.
Defined.

(** ** extract_fes2022_constants.py *)

(** The extracted record names each constituent at most once, and only
    constituents of the catalogue. *)
Theorem extract_record_no_duplicates (env : ExtractEnv) :
  NoDup (r_constituents (extract_loop env)) /\
  incl (r_constituents (extract_loop env)) CONSTITUENTS.
Proof.
  rewrite (proj1 (extract_loop_spec env)). split.
  - apply NoDup_filter. unfold CONSTITUENTS.
    repeat constructor; simpl; intros H; repeat destruct H as [H|H]; try discriminate H; exact H.
  - intros x Hx. apply filter_In in Hx. apply Hx.
Qed.
